(** * gemini-chatbot-api: the chat relay and the chat UI controller

    A shallow embedding of the two JavaScript sources of the repository:
    the Express server (the relay handler of [POST /api/chat] with its
    [extractText] helper) and [public/script.js] (the form submission
    handler of the chat page).

    JavaScript data is embedded as a first-order [value] type; code that
    can throw, logs, answers a request or touches the DOM is written in a
    state-and-exception monad whose state holds the trace of effects. *)

From Stdlib Require Import ZArith Lia Ascii String.
From stdpp Require Import base list strings pretty relations.

Open Scope Z_scope.

(** ** The JavaScript fragment the two sources use *)
Module JS.

(** JavaScript data, as far as JSON bodies and SDK responses hold it.
    A string is the sequence of its code units, here those below 256; a
    number is integer valued and below 10^21 in absolute value, where its
    decimal form has no exponent; an object lists its own enumerable
    properties in enumeration order, each key once. *)
#[warnings="-register-all"] Inductive value : Type :=
| VUndefined
| VNull
| VBool (b : bool)
| VNum (z : Z)
| VStr (s : string)
| VArr (elems : list value)
| VObj (props : list (string * value)).

(** Error objects: [new Error(msg)], the engine's [TypeError]s, and what
    a rejected promise of the SDK or of [fetch] carries. *)
Record js_error : Type := mkError { err_name : string; message : string }.

Definition Error (msg : string) : js_error := mkError "Error" msg.
Definition TypeError (msg : string) : js_error := mkError "TypeError" msg.

(** Completion of an evaluation: a value or a thrown error. *)
Inductive result (A : Type) : Type :=
| Ok (a : A)
| Throw (e : js_error).
Arguments Ok {A} a.
Arguments Throw {A} e.

(** [v == null], the test behind [?.] and [??]. *)
Definition is_nullish (v : value) : bool :=
  match v with
  | VUndefined | VNull => true
  | _ => false
  end.

(** [ToBoolean]. *)
Definition truthy (v : value) : bool :=
  match v with
  | VUndefined | VNull => false
  | VBool b => b
  | VNum z => negb (z =? 0)
  | VStr s => negb (String.eqb s "")
  | VArr _ | VObj _ => true
  end.

(** [Array.isArray]. *)
Definition isArray (v : value) : bool :=
  match v with
  | VArr _ => true
  | _ => false
  end.

(** [a ?? b] and [a || b]. *)
Definition coalesce (a b : value) : value := if is_nullish a then b else a.
Definition or_else (a b : value) : value := if truthy a then a else b.

(** Property keys: an array index is a key that is the canonical decimal
    form of a natural number. *)
Definition digit_of (c : ascii) : option nat :=
  let n := nat_of_ascii c in
  if bool_decide (48 <= n <= 57)%nat then Some (n - 48)%nat else None.

Fixpoint parse_digits (acc : nat) (s : string) : option nat :=
  match s with
  | EmptyString => Some acc
  | String c r =>
      match digit_of c with
      | Some d => parse_digits (10 * acc + d)%nat r
      | None => None
      end
  end.

Definition index_of_key (k : string) : option nat :=
  match k with
  | EmptyString => None
  | _ =>
      match parse_digits 0 k with
      | Some n => if String.eqb (pretty n) k then Some n else None
      | None => None
      end
  end.

Definition key_of_index (i : nat) : string := pretty i.

Fixpoint assoc (k : string) (ps : list (string * value)) : option value :=
  match ps with
  | [] => None
  | (k', v) :: ps' => if String.eqb k k' then Some v else assoc k ps'
  end.

Definition char_at (s : string) (i : nat) : value :=
  match String.get i s with
  | Some c => VStr (String c EmptyString)
  | None => VUndefined
  end.

(** [v[k]] on a value that is not nullish: own data properties, the
    elements and [length] of arrays and strings. Inherited methods are not
    data and none of the keys the program reads names one. *)
Definition own_prop (v : value) (k : string) : value :=
  match v with
  | VObj ps => default VUndefined (assoc k ps)
  | VArr l =>
      match index_of_key k with
      | Some i => default VUndefined (l !! i)
      | None => if String.eqb k "length" then VNum (Z.of_nat (length l)) else VUndefined
      end
  | VStr s =>
      match index_of_key k with
      | Some i => char_at s i
      | None => if String.eqb k "length" then VNum (Z.of_nat (String.length s)) else VUndefined
      end
  | _ => VUndefined
  end.

Definition nullish_name (v : value) : string :=
  match v with
  | VNull => "null"
  | _ => "undefined"
  end.

(** [v.k]: throws a [TypeError] on [null] and [undefined] (the text is
    the one of V8, the engine of Node). *)
Definition get_prop (v : value) (k : string) : result value :=
  if is_nullish v
  then Throw (TypeError ("Cannot read properties of " +:+ nullish_name v
                         +:+ " (reading '" +:+ k +:+ "')"))
  else Ok (own_prop v k).

(** [v?.k] and [v?.[i]]: [undefined] on [null] and [undefined]. *)
Definition opt_prop (v : value) (k : string) : value :=
  if is_nullish v then VUndefined else own_prop v k.

Definition opt_index (v : value) (i : nat) : value :=
  opt_prop v (key_of_index i).

(** [const { k } = v]. *)
Definition destructure (src : string) (v : value) (k : string) : result value :=
  if is_nullish v
  then Throw (TypeError ("Cannot destructure property '" +:+ k +:+ "' of '"
                         +:+ src +:+ "' as it is " +:+ nullish_name v +:+ "."))
  else Ok (own_prop v k).

(** *** Strings *)

Fixpoint join (sep : string) (l : list string) : string :=
  match l with
  | [] => ""
  | [s] => s
  | s :: l' => s +:+ sep +:+ join sep l'
  end.

(** [ToString]. *)
Fixpoint ToString (v : value) : string :=
  match v with
  | VUndefined => "undefined"
  | VNull => "null"
  | VBool true => "true"
  | VBool false => "false"
  | VNum z => pretty z
  | VStr s => s
  | VArr l =>
      join "," ((fix elems (l : list value) : list string :=
                   match l with
                   | [] => []
                   | x :: l' => (if is_nullish x then "" else ToString x) :: elems l'
                   end) l)
  | VObj _ => "[object Object]"
  end.

(** White space and line terminators of [String.prototype.trim] among
    the code units below 256: TAB, LF, VT, FF, CR, SP, NBSP. *)
Definition is_space (c : ascii) : bool :=
  let n := nat_of_ascii c in
  bool_decide (9 <= n <= 13)%nat || (n =? 32)%nat || (n =? 160)%nat.

Fixpoint trim_start (s : string) : string :=
  match s with
  | EmptyString => EmptyString
  | String c r => if is_space c then trim_start r else s
  end.

Fixpoint trim_end (s : string) : string :=
  match s with
  | EmptyString => EmptyString
  | String c r =>
      match trim_end r with
      | EmptyString => if is_space c then EmptyString else String c EmptyString
      | r' => String c r'
      end
  end.

Definition trim (s : string) : string := trim_end (trim_start s).

(** *** [JSON.stringify] *)

Definition hex_digit (n : nat) : ascii :=
  ascii_of_nat (if (n <? 10)%nat then 48 + n else 87 + n)%nat.

Definition quote_char (c : ascii) : string :=
  let n := nat_of_ascii c in
  if (n =? 8)%nat then "\b"
  else if (n =? 9)%nat then "\t"
  else if (n =? 10)%nat then "\n"
  else if (n =? 12)%nat then "\f"
  else if (n =? 13)%nat then "\r"
  else if (n =? 34)%nat then String "\"%char (String c EmptyString)
  else if (n =? 92)%nat then "\\"
  else if (n <? 32)%nat
       then "\u00" +:+ String (hex_digit (n / 16)) (String (hex_digit (n mod 16)) EmptyString)
  else String c EmptyString.

Fixpoint quote_body (s : string) : string :=
  match s with
  | EmptyString => EmptyString
  | String c r => quote_char c +:+ quote_body r
  end.

(** [QuoteJSONString]. *)
Definition quote (s : string) : string :=
  String (ascii_of_nat 34) (quote_body s +:+ String (ascii_of_nat 34) EmptyString).

Definition newline : string := String (ascii_of_nat 10) EmptyString.

(** The closing steps of [SerializeJSONObject] and [SerializeJSONArray]. *)
Definition wrap (opening closing gap stepback indent : string)
    (partial : list string) : string :=
  match partial with
  | [] => opening +:+ closing
  | _ =>
      if String.eqb gap ""
      then opening +:+ join "," partial +:+ closing
      else opening +:+ newline +:+ indent
           +:+ join ("," +:+ newline +:+ indent) partial
           +:+ newline +:+ stepback +:+ closing
  end.

(** [SerializeJSONProperty]; [None] stands for [undefined]. *)
Fixpoint serialize (gap indent : string) (v : value) : option string :=
  match v with
  | VUndefined => None
  | VNull => Some "null"
  | VBool true => Some "true"
  | VBool false => Some "false"
  | VNum z => Some (pretty z)
  | VStr s => Some (quote s)
  | VArr l =>
      let indent' := indent +:+ gap in
      Some (wrap "[" "]" gap indent indent'
              ((fix elems (l : list value) : list string :=
                  match l with
                  | [] => []
                  | x :: l' => default "null" (serialize gap indent' x) :: elems l'
                  end) l))
  | VObj ps =>
      let indent' := indent +:+ gap in
      Some (wrap "{" "}" gap indent indent'
              ((fix members (ps : list (string * value)) : list string :=
                  match ps with
                  | [] => []
                  | (k, x) :: ps' =>
                      match serialize gap indent' x with
                      | Some str =>
                          (quote k +:+ ":" +:+ (if String.eqb gap "" then "" else " ") +:+ str)
                            :: members ps'
                      | None => members ps'
                      end
                  end) ps))
  end.

(** [JSON.stringify(v)] and [JSON.stringify(v, null, 2)]. *)
Definition JSON_stringify (v : value) (gap : string) : value :=
  match serialize gap "" v with
  | Some s => VStr s
  | None => VUndefined
  end.

Definition is_string (v : value) : bool :=
  match v with
  | VStr _ => true
  | _ => false
  end.

(** *** State and exceptions *)

(** A computation over a state [St] that returns or throws. *)
Definition M (St A : Type) : Type := St -> result A * St.

Definition ret {St A} (a : A) : M St A := fun s => (Ok a, s).

Definition bind {St A B} (m : M St A) (k : A -> M St B) : M St B :=
  fun s =>
    match m s with
    | (Ok a, s') => k a s'
    | (Throw e, s') => (Throw e, s')
    end.

Definition throw {St A} (e : js_error) : M St A := fun s => (Throw e, s).

Definition lift {St A} (r : result A) : M St A := fun s => (r, s).

(** [try { body } catch (e) { handler e }]. *)
Definition try_catch {St A} (body : M St A) (handler : js_error -> M St A) : M St A :=
  fun s =>
    match body s with
    | (Ok a, s') => (Ok a, s')
    | (Throw e, s') => handler e s'
    end.

Definition modify {St} (f : St -> St) : M St unit := fun s => (Ok tt, f s).

Definition gets {St A} (f : St -> A) : M St A := fun s => (Ok (f s), s).

(** [l.map(f)]: the callback runs on the elements from left to right and
    the first throw ends the loop. *)
Fixpoint mapM {St A B} (f : A -> M St B) (l : list A) : M St (list B) :=
  match l with
  | [] => ret []
  | x :: l' => bind (f x) (fun y => bind (mapM f l') (fun ys => ret (y :: ys)))
  end.

End JS.

Import JS.

Declare Scope js_scope.
Delimit Scope js_scope with js.
Notation "'let*' x := m 'in' k" := (bind m (fun x => k))
  (at level 10, x name, m at level 100, k at level 200) : js_scope.
Notation "'do' m 'in' k" := (bind m (fun _ => k))
  (at level 10, m at level 100, k at level 200) : js_scope.
Open Scope js_scope.

(** ** The relay: the Express server *)
Module Relay.

(** What the handler does to the outside, in order: a call of
    [ai.models.generateContent], a line on [console.error], and the
    response sent ([res.json(b)] sends [b] with status 200,
    [res.status(c).json(b)] with status [c]). *)
Inductive event : Type :=
| GenerateContent (request : value)
| ConsoleError (label : string) (e : js_error)
| Respond (status : Z) (body : value).

(** The promise returned by the SDK call resolves or rejects. *)
Inductive outcome : Type :=
| Resolves (resp : value)
| Rejects (e : js_error).

(** The SDK client: what the call answers to a request. *)
Definition client : Type := value -> outcome.

Definition emit (ev : event) : M (list event) unit :=
  modify (fun tr => tr ++ [ev]).

Definition console_error (label : string) (e : js_error) : M (list event) unit :=
  emit (ConsoleError label e).

Definition GEMINI_MODEL : string := "gemini-2.5-flash".

(** The three chains of [extractText], in the order of its [??]s. *)
Definition path1 (resp : value) : value :=
  opt_prop (opt_index (opt_prop (opt_prop (opt_index (opt_prop (opt_prop
    resp "response") "candidate") 0) "content") "part") 0) "text".

Definition path2 (resp : value) : value :=
  opt_prop (opt_index (opt_prop (opt_prop (opt_index (opt_prop
    resp "candidate") 0) "content") "parts") 0) "text".

Definition path3 (resp : value) : value :=
  opt_prop (opt_prop (opt_index (opt_prop (opt_prop
    resp "response") "candidates") 0) "content") "text".

(** The body of the [try] block of [extractText]. *)
Definition extractText_try (resp : value) : M (list event) value :=
  let text := coalesce (coalesce (path1 resp) (path2 resp)) (path3 resp) in
  ret (coalesce text (JSON_stringify resp "  ")).

Definition extractText_catch (resp : value) (e : js_error) : M (list event) value :=
  do console_error "Error extracting text:" e in
  ret (JSON_stringify resp "  ").

Definition extractText (resp : value) : M (list event) value :=
  try_catch (extractText_try resp) (extractText_catch resp).

(** The callback of [messages.map]. *)
Definition to_content (msg : value) : M (list event) value :=
  let* role := lift (get_prop msg "role") in
  let* content := lift (get_prop msg "content") in
  ret (VObj [("role", role); ("parts", VArr [VObj [("text", content)]])]).

(** [await ai.models.generateContent(request)]. *)
Definition generateContent (ai : client) (request : value) : M (list event) value :=
  do emit (GenerateContent request) in
  match ai request with
  | Resolves resp => ret resp
  | Rejects e => throw e
  end.

Definition res_json (status : Z) (body : value) : M (list event) unit :=
  emit (Respond status body).

(** The [try] block of the handler of [POST /api/chat]. *)
Definition handler_try (ai : client) (req_body : value) : M (list event) unit :=
  let* messages := lift (destructure "req.body" req_body "messages") in
  do (if isArray messages then ret tt
      else throw (Error "Invalid messages format. Expected an array.")) in
  let* contents :=
    match messages with
    | VArr msgs => mapM to_content msgs
    | _ => ret [] (* not reached: the line above has thrown *)
    end in
  let* resp := generateContent ai
                 (VObj [("model", VStr GEMINI_MODEL); ("contents", VArr contents)]) in
  let* result := extractText resp in
  res_json 200 (VObj [("result", result)]).

Definition handler_catch (error : js_error) : M (list event) unit :=
  do console_error "Error in /api/chat:" error in
  res_json 500 (VObj [("error",
    or_else (VStr (message error)) (VStr "Internal Server Error"))]).

Definition handler (ai : client) (req_body : value) : M (list event) unit :=
  try_catch (handler_try ai req_body) handler_catch.

(** One request from start to end: how the handler completes and the
    effects it had. *)
Definition serve (ai : client) (req_body : value) : result unit * list event :=
  handler ai req_body [].

(** Projections of a trace. *)
Definition api_calls (tr : list event) : list value :=
  omap (fun ev => match ev with GenerateContent r => Some r | _ => None end) tr.

Definition responses (tr : list event) : list (Z * value) :=
  omap (fun ev => match ev with Respond c b => Some (c, b) | _ => None end) tr.

Definition logged (tr : list event) : list js_error :=
  omap (fun ev => match ev with ConsoleError _ e => Some e | _ => None end) tr.

(** The turn a message is mapped to when reading it throws nothing. *)
Definition turn_of (msg : value) : value :=
  VObj [("role", own_prop msg "role");
        ("parts", VArr [VObj [("text", own_prop msg "content")]])].

(** The argument of the SDK call for the messages [msgs]. *)
Definition request_for (msgs : list value) : value :=
  VObj [("model", VStr GEMINI_MODEL); ("contents", VArr (turn_of <$> msgs))].

(** The text [extractText] picks: the first chain that is neither
    [undefined] nor [null]. *)
Definition first_text (resp : value) : value :=
  coalesce (coalesce (path1 resp) (path2 resp)) (path3 resp).

(** [error.message || 'Internal Server Error']. *)
Definition reported (error : js_error) : value :=
  or_else (VStr (message error)) (VStr "Internal Server Error").

(** Sample data: a chat request, a client whose answer matches the
    first chain, one that always fails, and answers of other shapes. *)
Definition hi_request : value :=
  VObj [("messages", VArr [VObj [("role", VStr "user"); ("content", VStr "Hi")]])].

Definition path1_response (text : value) : value :=
  VObj [("response", VObj [("candidate", VArr [VObj [("content",
    VObj [("part", VArr [VObj [("text", text)]])])]])])].

Definition hello_client : client := fun _ => Resolves (path1_response (VStr "hello")).

Definition failing_client : client := fun _ => Rejects (Error "quota exceeded").

(** The shape the service documents: none of the three chains reads it. *)
Definition candidates_response : value :=
  VObj [("candidates", VArr [VObj [("content",
    VObj [("parts", VArr [VObj [("text", VStr "hello")]])])]])].

End Relay.

(** ** The chat page: public/script.js *)
Module ChatUI.

(** A message bubble: the [div] that [addMessageToChatBox] creates. *)
Record element : Type := mkElement {
  tagName : string;
  classList : list string;
  textContent : string
}.

(** What the submit handler does besides changing the page. *)
Inductive effect : Type :=
| PreventDefault
| Fetch (url : string) (init : value)
| ConsoleError (label : string) (e : js_error).

(** The page. Elements live in a store and are named by their position
    in it, so that a reference held by a pending submission and the child
    list of the chat box share one element. [scrolled] is the number of
    children the chat box had when its [scrollTop] was last set to its
    [scrollHeight]. *)
Record page : Type := mkPage {
  elements : list element;
  chatBox : list nat;
  userInput : string;
  scrolled : nat;
  effects : list effect
}.

Definition set_elements (f : list element -> list element) (p : page) : page :=
  mkPage (f (elements p)) (chatBox p) (userInput p) (scrolled p) (effects p).
Definition set_chatBox (f : list nat -> list nat) (p : page) : page :=
  mkPage (elements p) (f (chatBox p)) (userInput p) (scrolled p) (effects p).
Definition set_userInput (v : string) (p : page) : page :=
  mkPage (elements p) (chatBox p) v (scrolled p) (effects p).
Definition set_scrolled (n : nat) (p : page) : page :=
  mkPage (elements p) (chatBox p) (userInput p) n (effects p).
Definition add_effect (e : effect) (p : page) : page :=
  mkPage (elements p) (chatBox p) (userInput p) (scrolled p) (effects p ++ [e]).

Definition set_text (text : string) (el : element) : element :=
  mkElement (tagName el) (classList el) text.

(** [document.createElement] with the class list and the text set: the
    new element is stored and its reference returned. *)
Definition createElement (el : element) : M page nat :=
  let* ref := gets (fun p => length (elements p)) in
  do modify (set_elements (fun els => els ++ [el])) in
  ret ref.

(** [chatBox.appendChild(ref)]. *)
Definition appendChild (ref : nat) : M page unit :=
  modify (set_chatBox (fun cs => cs ++ [ref])).

(** [chatBox.scrollTop = chatBox.scrollHeight]. *)
Definition scroll_to_bottom : M page unit :=
  modify (fun p => set_scrolled (length (chatBox p)) p).

(** [ref.textContent = v]: the setter stores the string of the value,
    the empty string for [null] and [undefined]. *)
Definition set_textContent (ref : nat) (v : value) : M page unit :=
  modify (set_elements
            (alter (set_text (if is_nullish v then "" else ToString v)) ref)).

Definition addMessageToChatBox (text sender : string) : M page nat :=
  let* messageElement :=
    createElement (mkElement "div" ["message"; sender +:+ "-message"] text) in
  do appendChild messageElement in
  do scroll_to_bottom in
  ret messageElement.

(** The body of the request the page sends. *)
Definition request_of (userMessage : string) : value :=
  VObj [("messages", VArr [VObj [("role", VStr "user"); ("content", VStr userMessage)]])].

Definition fetch_init (userMessage : string) : value :=
  VObj [("method", VStr "POST");
        ("headers", VObj [("Content-Type", VStr "application/json")]);
        ("body", JSON_stringify (request_of userMessage) "")].

(** The submit handler up to its first [await]: it returns the reference
    of the placeholder when a request was sent, [None] when the input was
    empty. *)
Definition on_submit : M page (option nat) :=
  do modify (add_effect PreventDefault) in
  let* input := gets userInput in
  let userMessage := trim input in
  if negb (truthy (VStr userMessage)) then ret None
  else
    let* _ := addMessageToChatBox userMessage "user" in
    let* thinkingMessage := addMessageToChatBox "Thinking..." "bot" in
    do modify (set_userInput "") in
    do modify (add_effect (Fetch "/api/chat" (fetch_init userMessage))) in
    ret (Some thinkingMessage).

(** The [Response] of [fetch]: its status and what [response.json()]
    settles to. *)
Record response : Type := mkResponse {
  status : Z;
  json : result value
}.

(** [response.ok]. *)
Definition ok (r : response) : bool := (200 <=? status r) && (status r <=? 299).

(** The two fixed texts a placeholder can end with besides a result. *)
Definition no_result_text : string :=
  "Sorry, no response was received from the server.".

Definition failure_text : string :=
  "Failed to get a response from the server. Please try again.".

(** The rest of the handler, run when the promise of [fetch] settles:
    [settled] is [Ok] of the response or [Throw] of the transport error.
    The handler reads and writes nothing of the page between its two
    [await]s, so what follows them is one step, and the page it runs on is
    the page of that later moment. *)
Definition on_settled_try (thinkingMessage : nat) (settled : result response)
    : M page unit :=
  let* response := lift settled in
  do (if negb (ok response)
      then throw (Error ("HTTP error! Status: " +:+ pretty (status response)))
      else ret tt) in
  let* data := lift (json response) in
  let* cond := (if truthy data then lift (get_prop data "result") else ret data) in
  if truthy cond
  then
    let* result := lift (get_prop data "result") in
    set_textContent thinkingMessage result
  else
    set_textContent thinkingMessage (VStr no_result_text).

Definition on_settled_catch (thinkingMessage : nat) (error : js_error) : M page unit :=
  do modify (add_effect (ConsoleError "Failed to fetch chat response:" error)) in
  set_textContent thinkingMessage (VStr failure_text).

Definition on_settled (thinkingMessage : nat) (settled : result response) : M page unit :=
  try_catch (on_settled_try thinkingMessage settled) (on_settled_catch thinkingMessage).

(** Projections. *)
Definition fetches (p : page) : list (string * value) :=
  omap (fun e => match e with Fetch u i => Some (u, i) | _ => None end) (effects p).

Definition text_of (p : page) (ref : nat) : option string :=
  textContent <$> elements p !! ref.

(** The bubbles of the chat box, oldest first. *)
Definition bubbles (p : page) : list element :=
  omap (fun ref => elements p !! ref) (chatBox p).

(** Sample data: an empty chat with ["Hi"] typed, one with blanks typed,
    and a successful answer of the relay. *)
Definition hi_page : page := mkPage [] [] "  Hi " 0 [].

Definition blank_page : page :=
  mkPage [] [] (String (ascii_of_nat 9) "   ") 0 [].

Definition relay_answer (text : value) : result response :=
  Ok (mkResponse 200 (Ok (VObj [("result", text)]))).

End ChatUI.

(** ** Reading a string literal back *)
Module Wire.

(** The far end of [JSON.stringify]: [express.json()] on the server and
    [response.json()] on the page read the literals that [quote] writes.
    [unquote_body] reads the inside of one string literal up to its closing
    quote and returns the string and the text after it; [None] is a
    [SyntaxError], or an escape of a code unit of 256 and above. *)
Definition hex_value (c : ascii) : option nat :=
  let n := nat_of_ascii c in
  if bool_decide (48 <= n <= 57)%nat then Some (n - 48)%nat
  else if bool_decide (97 <= n <= 102)%nat then Some (n - 87)%nat
  else if bool_decide (65 <= n <= 70)%nat then Some (n - 55)%nat
  else None.

(** The one-character escapes of JSON. *)
Definition unescape (e : ascii) : option ascii :=
  let k := nat_of_ascii e in
  if (k =? 98)%nat then Some (ascii_of_nat 8)
  else if (k =? 116)%nat then Some (ascii_of_nat 9)
  else if (k =? 110)%nat then Some (ascii_of_nat 10)
  else if (k =? 102)%nat then Some (ascii_of_nat 12)
  else if (k =? 114)%nat then Some (ascii_of_nat 13)
  else if (k =? 34)%nat || (k =? 92)%nat || (k =? 47)%nat then Some e
  else None.

Definition push (c : ascii) (r : option (string * string)) : option (string * string) :=
  match r with
  | Some (s, rest) => Some (String c s, rest)
  | None => None
  end.

Fixpoint unquote_body (s : string) : option (string * string) :=
  match s with
  | EmptyString => None
  | String c r =>
      let n := nat_of_ascii c in
      if (n =? 34)%nat then Some (EmptyString, r)
      else if (n =? 92)%nat then
        match r with
        | EmptyString => None
        | String e r1 =>
            if (nat_of_ascii e =? 117)%nat then
              match r1 with
              | String a (String b (String x (String y r2))) =>
                  match hex_value a, hex_value b, hex_value x, hex_value y with
                  | Some O, Some O, Some h, Some l =>
                      push (ascii_of_nat (16 * h + l)) (unquote_body r2)
                  | _, _, _, _ => None
                  end
              | _ => None
              end
            else
              match unescape e with
              | Some ch => push ch (unquote_body r1)
              | None => None
              end
        end
      else if (n <? 32)%nat then None
      else push c (unquote_body r)
  end.

End Wire.

(** ** The life of a chat page *)
Module Session.
Import ChatUI.

(** What can happen to the page, one event at a time: the user types or
    scrolls, the form is submitted, the promise of a request settles. Any
    reference and any outcome is allowed to settle, which covers the
    settlements that do occur: those of the placeholders of earlier
    submissions, in any order. *)
Inductive step : page -> page -> Prop :=
| step_type (p : page) (v : string) : step p (set_userInput v p)
| step_scroll (p : page) (n : nat) : step p (set_scrolled n p)
| step_submit (p : page) : step p (snd (on_submit p))
| step_settle (p : page) (ref : nat) (settled : result response) :
    step p (snd (on_settled ref settled p)).

(** [later p q]: the page [q] comes from [p] by some events. *)
Definition later : page -> page -> Prop := rtc step.

(** Every child of the chat box is a stored element, appended once. *)
Definition well_formed (p : page) : Prop :=
  Forall (fun ref => (ref < length (elements p))%nat) (chatBox p) /\ NoDup (chatBox p).

(** Two elements are the same bubble up to their text. *)
Definition same_kind (a b : element) : Prop :=
  tagName a = tagName b /\ classList a = classList b.

(** What events keep of a page: its elements, up to their text, and
    the children of the chat box and the effects as a prefix. *)
Definition keeps (p q : page) : Prop :=
  (length (elements p) <= length (elements q))%nat
  /\ chatBox p `prefix_of` chatBox q
  /\ effects p `prefix_of` effects q
  /\ (forall i el, elements p !! i = Some el ->
        exists el', elements q !! i = Some el' /\ same_kind el el').

(** The two bubbles a submission of the text [t] appends. *)
Definition user_bubble (t : string) : element :=
  mkElement "div" ["message"; "user-message"] t.

Definition bot_bubble (t : string) : element :=
  mkElement "div" ["message"; "bot-message"] t.

(** The argument of the SDK call that the message [t] of a page leads to. *)
Definition request_of_text (t : string) : value :=
  VObj [("model", VStr "gemini-2.5-flash");
        ("contents",
         VArr [VObj [("role", VStr "user");
                     ("parts", VArr [VObj [("text", VStr t)]])]])].



Definition greeted_page : page :=
  mkPage [user_bubble "Hi"; bot_bubble "Hello!"] [0%nat; 1%nat] " again " 2 [].

End Session.

(** ** The relay on any answer of the SDK *)
Module Observed.
Import Relay.

(** The SDK call may resolve with an object that is not JSON data: one
    that holds a [BigInt] or refers to itself, on which [JSON.stringify]
    throws, or one with an accessor that throws when it is read.
    [extractText] touches its argument in four ways only, and an answer is
    given here by what each of them does: the value or the exception of
    each of the three chains, and of [JSON.stringify(resp, null, 2)]. *)
Record answer : Type := mkAnswer {
  chain1 : result value;
  chain2 : result value;
  chain3 : result value;
  dump : result value
}.

(** The answer that is the JSON data [resp]: nothing throws. *)
Definition data_answer (resp : value) : answer :=
  mkAnswer (Ok (path1 resp)) (Ok (path2 resp)) (Ok (path3 resp))
           (Ok (JSON_stringify resp "  ")).

(** The [try] block of [extractText]: [a ?? b ?? c] evaluates [b] only
    when [a] is nullish and [c] only when [a ?? b] is, and the response is
    serialized only when all of them are. *)
Definition extractText_try (a : answer) : M (list event) value :=
  let* first := lift (chain1 a) in
  let* second := (if is_nullish first then lift (chain2 a) else ret first) in
  let* text := (if is_nullish second then lift (chain3 a) else ret second) in
  if is_nullish text then lift (dump a) else ret text.

Definition extractText_catch (a : answer) (e : js_error) : M (list event) value :=
  do console_error "Error extracting text:" e in
  lift (dump a).

Definition extractText (a : answer) : M (list event) value :=
  try_catch (extractText_try a) (extractText_catch a).

(** The promise of the SDK call: it resolves with an answer or rejects
    with an error object. *)
Inductive outcome : Type :=
| Resolves (a : answer)
| Rejects (e : js_error).

Definition client : Type := value -> outcome.

Definition generateContent (ai : client) (request : value) : M (list event) answer :=
  do emit (GenerateContent request) in
  match ai request with
  | Resolves a => ret a
  | Rejects e => throw e
  end.

(** The handler of [POST /api/chat], as in [Relay] but for such a
    client. *)
Definition handler_try (ai : client) (req_body : value) : M (list event) unit :=
  let* messages := lift (destructure "req.body" req_body "messages") in
  do (if isArray messages then ret tt
      else throw (Error "Invalid messages format. Expected an array.")) in
  let* contents :=
    match messages with
    | VArr msgs => mapM to_content msgs
    | _ => ret [] (* not reached: the line above has thrown *)
    end in
  let* resp := generateContent ai
                 (VObj [("model", VStr GEMINI_MODEL); ("contents", VArr contents)]) in
  let* result := extractText resp in
  res_json 200 (VObj [("result", result)]).

Definition handler (ai : client) (req_body : value) : M (list event) unit :=
  try_catch (handler_try ai req_body) handler_catch.

Definition serve (ai : client) (req_body : value) : result unit * list event :=
  handler ai req_body [].

(** A client that answers with JSON data is a client of this kind. *)
Definition of_data (ai : Relay.client) : client :=
  fun request =>
    match ai request with
    | Relay.Resolves resp => Resolves (data_answer resp)
    | Relay.Rejects e => Rejects e
    end.

(** Reading the chains throws [e]: the first chain does, or it is
    nullish and the second does, or both are and the third does. *)
Definition read_throws (a : answer) (e : js_error) : Prop :=
  chain1 a = Throw e
  \/ (exists t1, chain1 a = Ok t1 /\ is_nullish t1 = true /\ chain2 a = Throw e)
  \/ (exists t1 t2, chain1 a = Ok t1 /\ is_nullish t1 = true /\
        chain2 a = Ok t2 /\ is_nullish t2 = true /\ chain3 a = Throw e).

(** The lines logged under a label. *)
Definition lines (label : string) (tr : list event) : list js_error :=
  omap (fun ev => match ev with
                  | ConsoleError l e => if String.eqb l label then Some e else None
                  | _ => None
                  end) tr.

(** Sample data: an object that holds a [BigInt] and none of the
    three texts, and an object whose [response] accessor throws and is
    left out of its serialization. *)
Definition bigint_answer : answer :=
  mkAnswer (Ok VUndefined) (Ok VUndefined) (Ok VUndefined)
           (Throw (TypeError "Do not know how to serialize a BigInt")).

Definition accessor_answer : answer :=
  mkAnswer (Throw (Error "not ready")) (Ok VUndefined) (Throw (Error "not ready"))
           (Ok (VStr "{}")).

End Observed.

(** * Properties *)

(** ** Values and serialization *)
Section ValueFacts.

Lemma serialize_defined (gap indent : string) (v : value) :
  v <> VUndefined -> exists s, serialize gap indent v = Some s.
Proof.
  destruct v as [ | |b|z|s|l|ps]; intros Hv; try congruence; simpl; eauto.
  destruct b; eauto.
Qed.

Lemma JSON_stringify_string (gap : string) (v : value) :
  v <> VUndefined -> is_string (JSON_stringify v gap) = true.
Proof.
  intros Hv. unfold JSON_stringify.
  destruct (serialize_defined gap "" v Hv) as [s ->]. reflexivity.
Qed.

Lemma JSON_stringify_undefined (gap : string) :
  JSON_stringify VUndefined gap = VUndefined.
Proof. reflexivity. Qed.

Lemma append_assoc (s1 s2 s3 : string) :
  (s1 +:+ s2) +:+ s3 = s1 +:+ s2 +:+ s3.
Proof.
  induction s1 as [|c s1 IH]; [reflexivity|].
  change (String c ((s1 +:+ s2) +:+ s3) = String c (s1 +:+ s2 +:+ s3)).
  now f_equal.
Qed.

Lemma coalesce_defined (a b : value) : is_nullish a = false -> coalesce a b = a.
Proof. unfold coalesce. now intros ->. Qed.

Lemma coalesce_nullish (a b : value) : is_nullish a = true -> coalesce a b = b.
Proof. unfold coalesce. now intros ->. Qed.

Lemma is_string_not_nullish (v : value) : is_string v = true -> is_nullish v = false.
Proof. now destruct v. Qed.

Lemma opt_prop_array_not_nullish (body : value) (k : string) (l : list value) :
  opt_prop body k = VArr l -> is_nullish body = false.
Proof. unfold opt_prop. destruct (is_nullish body); [discriminate | reflexivity]. Qed.

Lemma opt_prop_own (v : value) (k : string) :
  is_nullish v = false -> opt_prop v k = own_prop v k.
Proof. unfold opt_prop. now intros ->. Qed.

Lemma string_eqb_empty (s : string) : String.eqb s "" = true <-> s = "".
Proof. apply String.eqb_eq. Qed.

Lemma truthy_string (s : string) : truthy (VStr s) = true <-> s <> "".
Proof.
  simpl. destruct (String.eqb s "") eqn:E.
  - apply String.eqb_eq in E. split; [discriminate | congruence].
  - apply String.eqb_neq in E. split; [auto | reflexivity].
Qed.

(** [data && data.result] is truthy exactly when [data?.result] is. *)
Lemma falsy_no_result (data : value) :
  truthy data = false -> truthy (opt_prop data "result") = false.
Proof.
  destruct data as [ | |b|z|s|l|ps]; simpl; try reflexivity; discriminate.
Qed.

Lemma truthy_not_nullish (v : value) : truthy v = true -> is_nullish v = false.
Proof. now destruct v. Qed.

End ValueFacts.

(** ** The relay *)
Section RelayFacts.
Import Relay.

Variable ai : client.

Lemma to_content_ok (msg : value) (tr : list event) :
  is_nullish msg = false -> to_content msg tr = (Ok (turn_of msg), tr).
Proof.
  intros H. unfold to_content, bind, lift, get_prop. rewrite H. reflexivity.
Qed.

Lemma to_content_throw (msg : value) (tr : list event) :
  is_nullish msg = true ->
  to_content msg tr =
    (Throw (TypeError ("Cannot read properties of " +:+ nullish_name msg
                       +:+ " (reading 'role')")), tr).
Proof.
  intros H. unfold to_content, bind, lift, get_prop. rewrite H. reflexivity.
Qed.

Lemma mapM_to_content_ok (msgs : list value) (tr : list event) :
  Forall (fun m => is_nullish m = false) msgs ->
  mapM to_content msgs tr = (Ok (turn_of <$> msgs), tr).
Proof.
  induction 1 as [|m msgs Hm _ IH]; [reflexivity|].
  cbn [mapM]. unfold bind at 1. rewrite (to_content_ok m tr Hm).
  unfold bind at 1. rewrite IH. reflexivity.
Qed.

Lemma mapM_to_content_throw (msgs : list value) (tr : list event) :
  Exists (fun m => is_nullish m = true) msgs ->
  exists m, m ∈ msgs /\ is_nullish m = true /\
    mapM to_content msgs tr =
      (Throw (TypeError ("Cannot read properties of " +:+ nullish_name m
                         +:+ " (reading 'role')")), tr).
Proof.
  induction msgs as [|m msgs IH]; intros Hex; [inversion Hex|].
  destruct (is_nullish m) eqn:Hm.
  - exists m. split; [left|]. split; [assumption|].
    cbn [mapM]. unfold bind at 1. now rewrite (to_content_throw m tr Hm).
  - assert (Hrest : Exists (fun m => is_nullish m = true) msgs).
    { inversion Hex; subst; [congruence | assumption]. }
    destruct (IH Hrest) as (m' & Hin & Hnull & Hrun).
    exists m'. split; [now right|]. split; [assumption|].
    cbn [mapM]. unfold bind at 1. rewrite (to_content_ok m tr Hm).
    unfold bind at 1. now rewrite Hrun.
Qed.

(** Nothing in the [try] block of [extractText] throws on data, so the
    function returns what its last line computes and logs nothing. *)
Lemma extractText_run (resp : value) (tr : list event) :
  extractText resp tr =
    (Ok (coalesce (first_text resp) (JSON_stringify resp "  ")), tr).
Proof. reflexivity. Qed.

(** The two ends of a request that reaches the SDK call. *)
Lemma serve_forward (body : value) (msgs : list value) :
  opt_prop body "messages" = VArr msgs ->
  Forall (fun m => is_nullish m = false) msgs ->
  serve ai body =
    match ai (request_for msgs) with
    | Resolves resp =>
        (Ok tt, [GenerateContent (request_for msgs);
                 Respond 200 (VObj [("result",
                   coalesce (first_text resp) (JSON_stringify resp "  "))])])
    | Rejects e =>
        (Ok tt, [GenerateContent (request_for msgs);
                 ConsoleError "Error in /api/chat:" e;
                 Respond 500 (VObj [("error", reported e)])])
    end.
Proof.
  intros Hmsgs Hall.
  pose proof (opt_prop_array_not_nullish _ _ _ Hmsgs) as Hbody.
  rewrite (opt_prop_own _ _ Hbody) in Hmsgs.
  unfold serve, handler, try_catch, handler_try, destructure.
  rewrite Hbody. unfold bind at 1. unfold lift at 1. rewrite Hmsgs.
  cbn [isArray]. unfold bind at 1. unfold ret at 1.
  unfold bind at 1. rewrite (mapM_to_content_ok msgs [] Hall).
  unfold bind at 1. unfold generateContent, bind at 1. unfold emit, modify.
  fold (request_for msgs).
  destruct (ai (request_for msgs)) as [resp|e]; reflexivity.
Qed.

(** Every other request is answered from the [catch] block before any
    call is made. *)
Lemma serve_refuse (body : value) :
  (forall msgs, opt_prop body "messages" = VArr msgs ->
                Exists (fun m => is_nullish m = true) msgs) ->
  exists e,
    serve ai body =
      (Ok tt, [ConsoleError "Error in /api/chat:" e;
               Respond 500 (VObj [("error", VStr (message e))])])
    /\ message e <> ""
    /\ (is_nullish body = false -> isArray (opt_prop body "messages") = false ->
        e = Error "Invalid messages format. Expected an array.").
Proof.
  intros Hbad. unfold serve, handler, try_catch, handler_try, destructure.
  destruct (is_nullish body) eqn:Hbody.
  - destruct body; try discriminate Hbody;
      (eexists; split; [reflexivity | split; [discriminate | discriminate]]).
  - rewrite (opt_prop_own _ _ Hbody) in Hbad. rewrite (opt_prop_own _ _ Hbody).
    unfold bind at 1. unfold lift at 1.
    destruct (own_prop body "messages") as [ | |b|z|s|msgs|ps] eqn:Hmsgs;
      try (exists (Error "Invalid messages format. Expected an array.");
           split; [reflexivity | split; [discriminate | reflexivity]]).
    cbn [isArray]. unfold bind at 1. unfold ret at 1. unfold bind at 1.
    destruct (mapM_to_content_throw msgs [] (Hbad msgs eq_refl)) as (m & _ & Hm & ->).
    destruct m; try discriminate Hm;
      (eexists (TypeError _); split; [reflexivity | split; [discriminate | discriminate]]).
Qed.

End RelayFacts.

Section RelayClaims.
Import Relay.

Lemma nullish_dichotomy (msgs : list value) :
  Forall (fun m => is_nullish m = false) msgs \/
  Exists (fun m => is_nullish m = true) msgs.
Proof.
  induction msgs as [|m msgs [IH|IH]].
  - left. constructor.
  - destruct (is_nullish m) eqn:Hm.
    + right. now left.
    + left. now constructor.
  - right. now right.
Qed.

(** A request either reaches the SDK call or is refused before it. *)
Lemma request_dichotomy (body : value) :
  (exists msgs, opt_prop body "messages" = VArr msgs /\
                Forall (fun m => is_nullish m = false) msgs) \/
  (forall msgs, opt_prop body "messages" = VArr msgs ->
                Exists (fun m => is_nullish m = true) msgs).
Proof.
  destruct (opt_prop body "messages") as [ | |b|z|s|msgs|ps] eqn:E;
    try (right; intros msgs' Hmsgs'; discriminate Hmsgs').
  destruct (nullish_dichotomy msgs) as [Hall|Hex].
  - left. now exists msgs.
  - right. intros msgs' [= <-]. exact Hex.
Qed.

(** The handler always completes: no exception leaves it. *)
Lemma serve_completes (ai : client) (body : value) :
  fst (serve ai body) = Ok tt.
Proof.
  destruct (request_dichotomy body) as [(msgs & Hmsgs & Hall)|Hbad].
  - rewrite (serve_forward ai body msgs Hmsgs Hall).
    now destruct (ai (request_for msgs)).
  - destruct (serve_refuse ai body Hbad) as (e & -> & _). reflexivity.
Qed.

(** C1, as amended: when [messages] is not an array the handler makes no
    call to the generation API, logs the error and answers with status
    500 (not a 400-class status) and the body [{ error: message }], the
    message being the one of the handler's own [Error] when the body is an
    object, and the engine's [TypeError] text when there is no body. *)
Theorem relay_refuses_non_array (ai : client) (body : value) :
  isArray (opt_prop body "messages") = false ->
  exists e,
    serve ai body =
      (Ok tt, [ConsoleError "Error in /api/chat:" e;
               Respond 500 (VObj [("error", VStr (message e))])])
    /\ api_calls (snd (serve ai body)) = []
    /\ message e <> ""
    /\ (is_nullish body = false ->
        e = Error "Invalid messages format. Expected an array.").
Proof.
  intros Hnot.
  destruct (serve_refuse ai body) as (e & Hrun & Hmsg & Hobj).
  { intros msgs Hmsgs. rewrite Hmsgs in Hnot. discriminate. }
  exists e. rewrite Hrun. repeat split; auto.
Qed.

Lemma relay_refuses_non_array_witness :
  exists e,
    serve hello_client (VObj [("messages", VStr "hello")]) =
      (Ok tt, [ConsoleError "Error in /api/chat:" e;
               Respond 500 (VObj [("error", VStr (message e))])])
    /\ api_calls (snd (serve hello_client (VObj [("messages", VStr "hello")]))) = []
    /\ message e <> ""
    /\ (is_nullish (VObj [("messages", VStr "hello")]) = false ->
        e = Error "Invalid messages format. Expected an array.").
Proof.
  apply (relay_refuses_non_array hello_client (VObj [("messages", VStr "hello")])).
  reflexivity.
Defined.

(** C1 as stated fails: for [{ messages: "hello" }] the one response has
    status 500, which is not a 400-class status. *)
Lemma relay_non_array_status_is_500 :
  isArray (opt_prop (VObj [("messages", VStr "hello")]) "messages") = false /\
  responses (snd (serve hello_client (VObj [("messages", VStr "hello")]))) =
    [(500, VObj [("error", VStr "Invalid messages format. Expected an array.")])] /\
  ~ (400 <= 500 <= 499).
Proof. split; [reflexivity | split; [reflexivity | lia]]. Qed.

(** C2: for a request whose [messages] is a non-empty array of objects
    the handler makes exactly one call to the generation API, for the
    model ['gemini-2.5-flash'], whose [contents] has one turn per message,
    in the order of the messages, the i-th turn pairing the role of the
    i-th message with the one-element [parts] list holding its content. *)
Theorem relay_forwards_messages (ai : client) (body : value) (msgs : list value) :
  opt_prop body "messages" = VArr msgs ->
  msgs <> [] ->
  Forall (fun m => exists ps, m = VObj ps) msgs ->
  exists turns,
    api_calls (snd (serve ai body)) =
      [VObj [("model", VStr "gemini-2.5-flash"); ("contents", VArr turns)]]
    /\ length turns = length msgs
    /\ (forall i m, msgs !! i = Some m ->
          turns !! i =
            Some (VObj [("role", own_prop m "role");
                        ("parts", VArr [VObj [("text", own_prop m "content")]])]))
    /\ (forall i role content,
          msgs !! i = Some (VObj [("role", role); ("content", content)]) ->
          turns !! i =
            Some (VObj [("role", role); ("parts", VArr [VObj [("text", content)]])])).
Proof.
  intros Hmsgs _ Hobjs.
  assert (Hall : Forall (fun m => is_nullish m = false) msgs).
  { eapply Forall_impl; [exact Hobjs|]. intros m [ps ->]. reflexivity. }
  exists (turn_of <$> msgs).
  rewrite (serve_forward ai body msgs Hmsgs Hall).
  split; [now destruct (ai (request_for msgs))|].
  split; [apply length_fmap|].
  split.
  - intros i m Hi. rewrite list_lookup_fmap, Hi. reflexivity.
  - intros i role content Hi. rewrite list_lookup_fmap, Hi. reflexivity.
Qed.

Lemma relay_forwards_messages_witness :
  exists turns,
    api_calls (snd (serve hello_client hi_request)) =
      [VObj [("model", VStr "gemini-2.5-flash"); ("contents", VArr turns)]]
    /\ length turns = 1%nat.
Proof.
  destruct (relay_forwards_messages hello_client hi_request
              [VObj [("role", VStr "user"); ("content", VStr "Hi")]])
    as (turns & Hcall & Hlen & _).
  - reflexivity.
  - discriminate.
  - repeat constructor. eexists. reflexivity.
  - exists turns. split; [exact Hcall | exact Hlen].
Defined.

(** C3 as stated fails: a response whose text is the number 42 makes
    [extractText] return that number, which is no string. *)
Lemma extractText_returns_number :
  extractText (path1_response (VNum 42)) [] = (Ok (VNum 42), []) /\
  ~ (exists s, fst (extractText (path1_response (VNum 42)) []) = Ok (VStr s)).
Proof.
  split; [reflexivity|]. intros [s Hs]. discriminate Hs.
Qed.



(** C5: in every run of the handler in which the call to the generation
    API is made and rejects with an error, the handler completes without
    throwing, logs that error and sends one response, with status 500 and
    the body [{ error: message }], the message being the one of the error
    or ['Internal Server Error'] when that is empty. *)
Theorem relay_reports_api_failure
    (ai : client) (body : value) (request : value) (e : js_error) :
  GenerateContent request ∈ snd (serve ai body) ->
  ai request = Rejects e ->
  fst (serve ai body) = Ok tt
  /\ logged (snd (serve ai body)) = [e]
  /\ responses (snd (serve ai body)) =
       [(500, VObj [("error",
          VStr (if decide (message e = "") then "Internal Server Error"
                else message e))])].
Proof.
  intros Hcall Hrej.
  destruct (request_dichotomy body) as [(msgs & Hmsgs & Hall)|Hbad].
  - rewrite (serve_forward ai body msgs Hmsgs Hall) in *.
    assert (Hreq : request = request_for msgs).
    { destruct (ai (request_for msgs)); cbn [snd] in Hcall;
        repeat (apply elem_of_cons in Hcall as [Hcall|Hcall];
                [try discriminate Hcall; now injection Hcall|]);
        now apply elem_of_nil in Hcall. }
    subst request. rewrite Hrej.
    split; [reflexivity|]. split; [reflexivity|].
    cbn. unfold reported, or_else. cbn.
    destruct (decide (message e = "")) as [->|Hne]; [reflexivity|].
    apply String.eqb_neq in Hne. now rewrite Hne.
  - destruct (serve_refuse ai body Hbad) as (e' & Hrun & _).
    rewrite Hrun in Hcall. cbn [snd] in Hcall.
    repeat (apply elem_of_cons in Hcall as [Hcall|Hcall]; [discriminate Hcall|]).
    now apply elem_of_nil in Hcall.
Qed.

Lemma relay_reports_api_failure_witness :
  fst (serve failing_client hi_request) = Ok tt
  /\ logged (snd (serve failing_client hi_request)) = [Error "quota exceeded"]
  /\ responses (snd (serve failing_client hi_request)) =
       [(500, VObj [("error", VStr "quota exceeded")])].
Proof.
  apply (relay_reports_api_failure failing_client hi_request
           (request_for [VObj [("role", VStr "user"); ("content", VStr "Hi")]])
           (Error "quota exceeded")).
  - left.
  - reflexivity.
Defined.

(** C9, as amended: when [messages] is an array none of whose elements
    is [null] or [undefined], the handler makes the call whatever the
    elements are: nothing checks their role and content, and a number, a
    boolean, a string or an empty object becomes a turn whose role and
    text are [undefined]. *)
Theorem relay_forwards_any_elements (ai : client) (body : value) (msgs : list value) :
  opt_prop body "messages" = VArr msgs ->
  Forall (fun m => is_nullish m = false) msgs ->
  api_calls (snd (serve ai body)) =
    [VObj [("model", VStr "gemini-2.5-flash"); ("contents", VArr (turn_of <$> msgs))]]
  /\ (forall m, m ∈ msgs ->
        (exists z, m = VNum z) \/ (exists b, m = VBool b) \/
        (exists s, m = VStr s) \/ m = VObj [] ->
        turn_of m =
          VObj [("role", VUndefined); ("parts", VArr [VObj [("text", VUndefined)]])]).
Proof.
  intros Hmsgs Hall.
  rewrite (serve_forward ai body msgs Hmsgs Hall).
  split; [now destruct (ai (request_for msgs))|].
  intros m _ [[z ->]|[[b ->]|[[s ->]| ->]]]; reflexivity.
Qed.

Lemma relay_forwards_any_elements_witness :
  api_calls (snd (serve hello_client
    (VObj [("messages", VArr [VNum 1; VStr "a"; VObj []])]))) =
    [VObj [("model", VStr "gemini-2.5-flash");
           ("contents", VArr (turn_of <$> [VNum 1; VStr "a"; VObj []]))]].
Proof.
  apply (relay_forwards_any_elements hello_client
           (VObj [("messages", VArr [VNum 1; VStr "a"; VObj []])])
           [VNum 1; VStr "a"; VObj []]).
  - reflexivity.
  - repeat constructor.
Defined.

(** C9 as stated fails: the array [[null]] is refused, reading the role
    of its element throws before any call is made. *)
Lemma relay_refuses_null_element :
  opt_prop (VObj [("messages", VArr [VNull])]) "messages" = VArr [VNull] /\
  api_calls (snd (serve hello_client (VObj [("messages", VArr [VNull])]))) = [] /\
  responses (snd (serve hello_client (VObj [("messages", VArr [VNull])]))) =
    [(500, VObj [("error",
       VStr "Cannot read properties of null (reading 'role')")])].
Proof. repeat split. Qed.

End RelayClaims.

(** ** The chat page *)
Section ChatUIFacts.
Import ChatUI.

(** A submission with text: the page after the handler reached its
    [await], and the reference it holds. *)
Lemma on_submit_sends (p : page) :
  trim (userInput p) <> "" ->
  on_submit p =
    (Ok (Some (S (length (elements p)))),
     mkPage
       (elements p ++
          [mkElement "div" ["message"; "user-message"] (trim (userInput p));
           mkElement "div" ["message"; "bot-message"] "Thinking..."])
       (chatBox p ++ [length (elements p); S (length (elements p))])
       ""
       (S (S (length (chatBox p))))
       (effects p ++
          [PreventDefault; Fetch "/api/chat" (fetch_init (trim (userInput p)))])).
Proof.
  intros Ht. apply truthy_string in Ht.
  unfold on_submit, bind, modify, gets. cbn [add_effect userInput].
  rewrite Ht. cbn.
  unfold ret, add_effect, set_userInput, set_scrolled, set_chatBox, set_elements.
  cbn. rewrite !length_app, <- !app_assoc. cbn.
  rewrite !Nat.add_1_r. reflexivity.
Qed.

Lemma on_submit_ignores (p : page) :
  trim (userInput p) = "" ->
  on_submit p = (Ok None, add_effect PreventDefault p).
Proof.
  intros Ht. unfold on_submit, bind, modify, gets. cbn [add_effect userInput].
  rewrite Ht. reflexivity.
Qed.

Lemma fetches_add_effect (e : effect) (p : page) :
  fetches (add_effect e p) =
    fetches p ++ match e with Fetch u i => [(u, i)] | _ => [] end.
Proof.
  unfold fetches, add_effect. cbn [effects]. rewrite omap_app.
  now destruct e.
Qed.

(** The setter stores the text of a truthy value. *)
Lemma set_textContent_truthy (ref : nat) (v : value) (p : page) :
  truthy v = true ->
  set_textContent ref v p =
    (Ok tt, set_elements (alter (set_text (ToString v)) ref) p).
Proof. now destruct v. Qed.

Lemma on_settled_result (ref : nat) (resp : response) (data : value) (p : page) :
  ok resp = true -> json resp = Ok data ->
  truthy (opt_prop data "result") = true ->
  on_settled ref (Ok resp) p =
    (Ok tt, set_elements (alter (set_text (ToString (opt_prop data "result"))) ref) p).
Proof.
  intros Hok Hjson Hres.
  assert (Hdata : truthy data = true).
  { destruct (truthy data) eqn:E; [reflexivity|].
    rewrite (falsy_no_result data E) in Hres. discriminate. }
  pose proof (truthy_not_nullish data Hdata) as Hnn.
  rewrite (opt_prop_own _ _ Hnn) in *.
  unfold on_settled, try_catch, on_settled_try, bind, lift, get_prop.
  rewrite Hok, Hjson, Hdata, Hnn. cbn [negb ret]. rewrite Hres.
  now rewrite set_textContent_truthy.
Qed.

Lemma on_settled_no_result (ref : nat) (resp : response) (data : value) (p : page) :
  ok resp = true -> json resp = Ok data ->
  truthy (opt_prop data "result") = false ->
  on_settled ref (Ok resp) p =
    (Ok tt, set_elements (alter (set_text no_result_text) ref) p).
Proof.
  intros Hok Hjson Hres.
  unfold on_settled, try_catch, on_settled_try, bind, lift, get_prop.
  rewrite Hok, Hjson. cbn [negb ret].
  destruct (truthy data) eqn:Hdata.
  - pose proof (truthy_not_nullish data Hdata) as Hnn.
    rewrite (opt_prop_own _ _ Hnn) in Hres. rewrite Hnn, Hres. reflexivity.
  - unfold ret. rewrite Hdata. reflexivity.
Qed.

Lemma on_settled_failure (ref : nat) (settled : result response) (p : page) :
  (exists e, settled = Throw e) \/
  (exists resp, settled = Ok resp /\
     (ok resp = false \/ exists e, json resp = Throw e)) ->
  exists e,
    on_settled ref settled p =
      (Ok tt, set_elements (alter (set_text failure_text) ref)
                (add_effect (ConsoleError "Failed to fetch chat response:" e) p)).
Proof.
  intros [[e ->]|(resp & -> & [Hok|[e Hjson]])].
  - exists e. reflexivity.
  - eexists. unfold on_settled, try_catch, on_settled_try, bind, lift.
    rewrite Hok. reflexivity.
  - destruct (ok resp) eqn:Hok.
    + exists e. unfold on_settled, try_catch, on_settled_try, bind, lift.
      rewrite Hok, Hjson. reflexivity.
    + eexists. unfold on_settled, try_catch, on_settled_try, bind, lift.
      rewrite Hok. reflexivity.
Qed.

Lemma trim_start_blank (s : string) :
  Forall (fun c => is_space c = true) (list_ascii_of_string s) ->
  trim_start s = "".
Proof.
  induction s as [|c s IH]; [reflexivity|].
  cbn [list_ascii_of_string trim_start]. intros Hall.
  apply Forall_cons in Hall as [-> Hall]. now apply IH.
Qed.

(** An input of white space only is empty once trimmed. *)
Lemma trim_blank (s : string) :
  Forall (fun c => is_space c = true) (list_ascii_of_string s) ->
  trim s = "".
Proof. intros Hall. unfold trim. now rewrite (trim_start_blank s Hall). Qed.

Ltac no_new_fetch :=
  unfold fetches, set_elements, add_effect; cbn [effects];
  rewrite omap_app; cbn; apply app_nil_r.

(** C6, as amended: when the promise of the relay call settles, the text
    of the placeholder is changed in place and nothing else of the chat
    is. On a success response whose body parses, the text becomes the
    returned result (its string form) when that result is truthy, and the
    fixed no-response text exactly when the body or its result is falsy:
    absent, [null], the empty string, 0 or [false]. On a transport error,
    a status outside 200 to 299 or a body that does not parse, it becomes
    the fixed failure text. *)
Theorem placeholder_after_settle (p : page) (ref : nat) (settled : result response) :
  exists text p',
    on_settled ref settled p = (Ok tt, p')
    /\ elements p' = alter (set_text text) ref (elements p)
    /\ chatBox p' = chatBox p
    /\ fetches p' = fetches p
    /\ (forall resp data,
          settled = Ok resp -> ok resp = true -> json resp = Ok data ->
          if truthy (opt_prop data "result")
          then text = ToString (opt_prop data "result")
          else text = no_result_text)
    /\ (forall resp data r,
          settled = Ok resp -> ok resp = true -> json resp = Ok data ->
          opt_prop data "result" = VStr r -> r <> "" -> text = r)
    /\ ((exists e, settled = Throw e) \/
        (exists resp, settled = Ok resp /\
           (ok resp = false \/ exists e, json resp = Throw e)) ->
        text = failure_text).
Proof.
  destruct settled as [resp|e].
  - destruct (ok resp) eqn:Hok.
    + destruct (json resp) as [data|e] eqn:Hjson.
      * destruct (truthy (opt_prop data "result")) eqn:Hres.
        -- exists (ToString (opt_prop data "result")). eexists.
           split; [apply (on_settled_result ref resp data p Hok Hjson Hres)|].
           repeat split.
           ++ intros resp' data' [= <-] _ Hjson'.
              rewrite Hjson in Hjson'. injection Hjson' as <-. now rewrite Hres.
           ++ intros resp' data' r [= <-] _ Hjson' Hr _.
              rewrite Hjson in Hjson'. injection Hjson' as <-. now rewrite Hr.
           ++ intros [[e [=]]|(resp' & [= <-] & [Hno|[e He]])]; congruence.
        -- exists no_result_text. eexists.
           split; [apply (on_settled_no_result ref resp data p Hok Hjson Hres)|].
           repeat split.
           ++ intros resp' data' [= <-] _ Hjson'.
              rewrite Hjson in Hjson'. injection Hjson' as <-. now rewrite Hres.
           ++ intros resp' data' r [= <-] _ Hjson' Hr Hne.
              rewrite Hjson in Hjson'. injection Hjson' as <-.
              rewrite Hr in Hres. apply truthy_string in Hne. congruence.
           ++ intros [[e [=]]|(resp' & [= <-] & [Hno|[e He]])]; congruence.
      * destruct (on_settled_failure ref (Ok resp) p) as [e' Hrun].
        { right. exists resp. split; [reflexivity|]. right. now exists e. }
        exists failure_text. eexists. split; [exact Hrun|].
        repeat split.
        -- no_new_fetch.
        -- intros resp' data' [= <-] _ Hjson'. congruence.
        -- intros resp' data' r [= <-] _ Hjson'. congruence.
    + destruct (on_settled_failure ref (Ok resp) p) as [e' Hrun].
      { right. exists resp. split; [reflexivity|]. now left. }
      exists failure_text. eexists. split; [exact Hrun|].
      repeat split.
      * no_new_fetch.
      * intros resp' data' [= <-] Hok'. congruence.
      * intros resp' data' r [= <-] Hok'. congruence.
  - destruct (on_settled_failure ref (Throw e) p) as [e' Hrun].
    { left. now exists e. }
    exists failure_text. eexists. split; [exact Hrun|].
    repeat split.
    + no_new_fetch.
    + intros resp' data' [=].
    + intros resp' data' r [=].
Qed.

(** C6 as stated fails: the body [{ result: "" }] has a result field,
    and the placeholder still ends with the no-response text. *)
Lemma present_empty_result_shows_no_response :
  assoc "result" [("result", VStr "")] = Some (VStr "") /\
  text_of (snd (on_settled 1 (relay_answer (VStr "")) (snd (on_submit hi_page)))) 1 =
    Some no_result_text.
Proof. split; reflexivity. Qed.

(** C7, as amended: a submission whose trimmed input [t] is not empty
    appends a user bubble with text [t] and then a bot bubble with text
    ["Thinking..."], and holds the reference of the latter. When the relay
    later answers [{ result: r }] with a non-empty string [r], the element
    behind that reference gets the text [r]: no element is created, the
    children of the chat box and every other element stay as they were. *)
Theorem submission_bubbles (p : page) :
  trim (userInput p) <> "" ->
  exists p1,
    on_submit p = (Ok (Some (S (length (elements p)))), p1)
    /\ chatBox p1 = chatBox p ++ [length (elements p); S (length (elements p))]
    /\ elements p1 !! length (elements p) =
         Some (mkElement "div" ["message"; "user-message"] (trim (userInput p)))
    /\ elements p1 !! S (length (elements p)) =
         Some (mkElement "div" ["message"; "bot-message"] "Thinking...")
    /\ (forall (p2 : page) (el : element) (st : Z) (r : string),
          elements p2 !! S (length (elements p)) = Some el ->
          200 <= st <= 299 -> r <> "" ->
          exists p3,
            on_settled (S (length (elements p)))
              (Ok (mkResponse st (Ok (VObj [("result", VStr r)])))) p2 = (Ok tt, p3)
            /\ elements p3 !! S (length (elements p)) = Some (set_text r el)
            /\ (forall j, j <> S (length (elements p)) ->
                  elements p3 !! j = elements p2 !! j)
            /\ length (elements p3) = length (elements p2)
            /\ chatBox p3 = chatBox p2).
Proof.
  intros Ht. eexists. split; [apply (on_submit_sends p Ht)|].
  cbn [chatBox elements]. split; [reflexivity|].
  split.
  { rewrite lookup_app_r by lia. now rewrite Nat.sub_diag. }
  split.
  { rewrite lookup_app_r by lia.
    now replace (S (length (elements p)) - length (elements p))%nat with 1%nat by lia. }
  intros p2 el st r Hel Hst Hr. eexists. split.
  - apply (on_settled_result _ (mkResponse st (Ok (VObj [("result", VStr r)])))
             (VObj [("result", VStr r)])).
    + unfold ok. cbn [status]. apply andb_true_intro. split; apply Z.leb_le; lia.
    + reflexivity.
    + apply (truthy_string r), Hr.
  - cbn [elements chatBox set_elements]. split; [|split; [|split]].
    + rewrite list_lookup_alter_eq, Hel. reflexivity.
    + intros j Hj. now apply list_lookup_alter_ne.
    + apply length_alter.
    + reflexivity.
Qed.

Lemma submission_bubbles_witness :
  exists p1,
    on_submit hi_page = (Ok (Some 1%nat), p1)
    /\ chatBox p1 = [0%nat; 1%nat]
    /\ elements p1 !! 0%nat = Some (mkElement "div" ["message"; "user-message"] "Hi")
    /\ elements p1 !! 1%nat =
         Some (mkElement "div" ["message"; "bot-message"] "Thinking...")
    /\ exists p3,
         on_settled 1 (relay_answer (VStr "Hello!")) p1 = (Ok tt, p3)
         /\ bubbles p3 =
              [mkElement "div" ["message"; "user-message"] "Hi";
               mkElement "div" ["message"; "bot-message"] "Hello!"].
Proof.
  destruct (submission_bubbles hi_page) as (p1 & Hrun & Hbox & Huser & Hbot & Hlater).
  { discriminate. }
  exists p1. repeat (split; [assumption|]).
  injection Hrun as <-. eexists. split; reflexivity.
Defined.

(** C7 as stated fails: when the relay answers [{ result: "" }] the
    placeholder does not get the text of the result. *)
Lemma empty_result_not_shown :
  trim (userInput hi_page) = "Hi" /\
  text_of (snd (on_settled 1 (relay_answer (VStr "")) (snd (on_submit hi_page)))) 1
    <> Some "".
Proof. split; [reflexivity | discriminate]. Qed.

(** C8: a submission whose input is empty once trimmed creates no
    bubble and sends no request; the chat is unchanged. *)
Theorem empty_submission_ignored (p : page) :
  trim (userInput p) = "" ->
  exists p',
    on_submit p = (Ok None, p')
    /\ elements p' = elements p
    /\ chatBox p' = chatBox p
    /\ userInput p' = userInput p
    /\ scrolled p' = scrolled p
    /\ fetches p' = fetches p.
Proof.
  intros Ht. exists (add_effect PreventDefault p).
  split; [apply (on_submit_ignores p Ht)|].
  repeat split. now rewrite fetches_add_effect, app_nil_r.
Qed.

Lemma empty_submission_ignored_witness :
  exists p',
    on_submit blank_page = (Ok None, p')
    /\ elements p' = []
    /\ chatBox p' = []
    /\ userInput p' = userInput blank_page
    /\ scrolled p' = 0%nat
    /\ fetches p' = [].
Proof.
  apply (empty_submission_ignored blank_page).
  apply trim_blank. repeat constructor.
Defined.

(** C10: for a submission whose trimmed input [t] is not empty, the one
    request sent goes to ['/api/chat'] with the body
    [{"messages":[{"role":"user","content":t}]}]: a single message, of
    role ["user"], whatever the chat held before. *)
Theorem request_body_singleton (p : page) :
  trim (userInput p) <> "" ->
  fetches (snd (on_submit p)) =
    fetches p ++
    [("/api/chat",
      VObj [("method", VStr "POST");
            ("headers", VObj [("Content-Type", VStr "application/json")]);
            ("body",
             JSON_stringify
               (VObj [("messages",
                  VArr [VObj [("role", VStr "user");
                              ("content", VStr (trim (userInput p)))]])]) "")])]
  /\ JSON_stringify
       (VObj [("messages",
          VArr [VObj [("role", VStr "user");
                      ("content", VStr (trim (userInput p)))]])]) "" =
     VStr ("{" +:+ quote "messages" +:+ ":[{" +:+ quote "role" +:+ ":"
           +:+ quote "user" +:+ "," +:+ quote "content" +:+ ":"
           +:+ quote (trim (userInput p)) +:+ "}]}").
Proof.
  intros Ht. rewrite (on_submit_sends p Ht). split.
  - unfold fetches. cbn [snd effects]. rewrite omap_app. reflexivity.
  - generalize (trim (userInput p)). intros t.
    cbv [JSON_stringify serialize wrap join default String.eqb id].
    rewrite !append_assoc. reflexivity.
Qed.

Lemma request_body_singleton_witness :
  fetches (snd (on_submit hi_page)) =
    [("/api/chat",
      VObj [("method", VStr "POST");
            ("headers", VObj [("Content-Type", VStr "application/json")]);
            ("body", JSON_stringify (request_of "Hi") "")])].
Proof.
  apply (request_body_singleton hi_page). discriminate.
Defined.

End ChatUIFacts.

(** ** More on the relay *)
Section RelayMore.
Import Relay Session.

(** [map] stops at the first element it cannot read. *)
Lemma mapM_to_content_first (pre post : list value) (m : value) (tr : list event) :
  Forall (fun x => is_nullish x = false) pre ->
  is_nullish m = true ->
  mapM to_content (pre ++ m :: post) tr =
    (Throw (TypeError ("Cannot read properties of " +:+ nullish_name m
                       +:+ " (reading 'role')")), tr).
Proof.
  intros Hpre Hm. induction Hpre as [|x pre Hx _ IH].
  - cbn [app mapM]. unfold bind at 1. now rewrite (to_content_throw m tr Hm).
  - cbn [app mapM]. unfold bind at 1. rewrite (to_content_ok x tr Hx).
    unfold bind at 1. now rewrite IH.
Qed.

(** A list with a nullish element splits at the first one. *)
Lemma first_nullish (msgs : list value) :
  Exists (fun m => is_nullish m = true) msgs ->
  exists pre m post,
    msgs = pre ++ m :: post /\
    Forall (fun x => is_nullish x = false) pre /\ is_nullish m = true.
Proof.
  induction msgs as [|x msgs IH]; intros Hex; [inversion Hex|].
  destruct (is_nullish x) eqn:Hx.
  - exists [], x, msgs. repeat split; [constructor | assumption].
  - assert (Hrest : Exists (fun m => is_nullish m = true) msgs).
    { inversion Hex; subst; [congruence | assumption]. }
    destruct (IH Hrest) as (pre & m & post & -> & Hpre & Hm).
    exists (x :: pre), m, post. repeat split; [now constructor | assumption].
Qed.

Lemma reported_text (e : js_error) :
  exists m, reported e = VStr m /\ m <> "".
Proof.
  unfold reported, or_else. cbn [truthy].
  destruct (String.eqb (message e) "") eqn:E; cbn [negb].
  - now exists "Internal Server Error".
  - exists (message e). split; [reflexivity|]. now apply String.eqb_neq.
Qed.

(** An array with a [null] or [undefined] element is refused whatever
    its other elements are: no call is made, and the 500 response names
    the first such element, the one at which [map] stopped. *)
Theorem serve_refuses_nullish_element
    (ai : client) (body : value) (pre post : list value) (m : value) :
  opt_prop body "messages" = VArr (pre ++ m :: post) ->
  Forall (fun x => is_nullish x = false) pre ->
  is_nullish m = true ->
  serve ai body =
    (Ok tt,
     [ConsoleError "Error in /api/chat:"
        (TypeError ("Cannot read properties of " +:+ nullish_name m
                    +:+ " (reading 'role')"));
      Respond 500 (VObj [("error",
        VStr ("Cannot read properties of " +:+ nullish_name m
              +:+ " (reading 'role')"))])]).
Proof.
  intros Hmsgs Hpre Hm.
  pose proof (opt_prop_array_not_nullish _ _ _ Hmsgs) as Hbody.
  rewrite (opt_prop_own _ _ Hbody) in Hmsgs.
  unfold serve, handler, try_catch, handler_try, destructure.
  rewrite Hbody. unfold bind at 1. unfold lift at 1. rewrite Hmsgs.
  cbn [isArray]. unfold bind at 1. unfold ret at 1. unfold bind at 1.
  rewrite (mapM_to_content_first pre post m [] Hpre Hm).
  destruct m; try discriminate Hm; reflexivity.
Qed.

Lemma serve_refuses_nullish_element_witness :
  serve hello_client
    (VObj [("messages", VArr [VObj [("role", VStr "user")]; VUndefined; VNull])]) =
    (Ok tt,
     [ConsoleError "Error in /api/chat:"
        (TypeError "Cannot read properties of undefined (reading 'role')");
      Respond 500 (VObj [("error",
        VStr "Cannot read properties of undefined (reading 'role')")])]).
Proof.
  apply (serve_refuses_nullish_element hello_client _
           [VObj [("role", VStr "user")]] [VNull] VUndefined).
  - reflexivity.
  - repeat constructor.
  - reflexivity.
Defined.

(** An empty [messages] array is not refused: the call is made, with no
    turn at all. *)
Theorem serve_empty_messages (ai : client) (body : value) :
  opt_prop body "messages" = VArr [] ->
  api_calls (snd (serve ai body)) =
    [VObj [("model", VStr "gemini-2.5-flash"); ("contents", VArr [])]].
Proof.
  intros Hmsgs. rewrite (serve_forward ai body [] Hmsgs (Forall_nil_2 _)).
  now destruct (ai (request_for [])).
Qed.

Lemma serve_empty_messages_witness :
  api_calls (snd (serve failing_client (VObj [("messages", VArr [])]))) =
    [VObj [("model", VStr "gemini-2.5-flash"); ("contents", VArr [])]].
Proof.
  apply (serve_empty_messages failing_client (VObj [("messages", VArr [])])).
  reflexivity.
Defined.

Lemma wrap_not_empty (opening closing gap stepback indent : string)
    (partial : list string) :
  opening <> "" -> wrap opening closing gap stepback indent partial <> "".
Proof.
  intros Hopen. unfold wrap.
  destruct opening as [|c opening]; [congruence|].
  destruct partial; [discriminate|]. destruct (String.eqb gap ""); discriminate.
Qed.

(** The paths of an object that has neither of the two keys they start
    with. *)
Lemma paths_of_unknown_shape (ps : list (string * value)) :
  assoc "response" ps = None -> assoc "candidate" ps = None ->
  first_text (VObj ps) = VUndefined.
Proof.
  intros Hresp Hcand.
  assert (Hr : opt_prop (VObj ps) "response" = VUndefined).
  { unfold opt_prop. cbn [is_nullish own_prop]. now rewrite Hresp. }
  assert (Hc : opt_prop (VObj ps) "candidate" = VUndefined).
  { unfold opt_prop. cbn [is_nullish own_prop]. now rewrite Hcand. }
  unfold first_text, path1, path2, path3. rewrite Hr, Hc. reflexivity.
Qed.

(** A response object with no [response] and no [candidate] property is
    read by none of the three chains, whatever else it holds: for it
    [extractText] returns the dump of the whole object, a non-empty
    string. An object with [candidates] at its top is such a response. *)
Theorem extractText_dumps_unknown_shape
    (ps : list (string * value)) (tr : list event) :
  assoc "response" ps = None -> assoc "candidate" ps = None ->
  exists dump,
    extractText (VObj ps) tr = (Ok (VStr dump), tr) /\
    JSON_stringify (VObj ps) "  " = VStr dump /\
    dump <> "".
Proof.
  intros Hresp Hcand. rewrite extractText_run.
  rewrite (paths_of_unknown_shape ps Hresp Hcand).
  unfold coalesce, JSON_stringify. cbn [is_nullish serialize].
  eexists. split; [reflexivity|]. split; [reflexivity|].
  now apply wrap_not_empty.
Qed.

Lemma extractText_dumps_unknown_shape_witness :
  exists dump,
    extractText candidates_response [] = (Ok (VStr dump), []) /\
    JSON_stringify candidates_response "  " = VStr dump /\
    dump <> "".
Proof.
  apply (extractText_dumps_unknown_shape
           [("candidates", VArr [VObj [("content",
              VObj [("parts", VArr [VObj [("text", VStr "hello")]])])]])] []);
    reflexivity.
Defined.



End RelayMore.

(** ** The request on the wire *)
Section WireFacts.
Import ChatUI Wire.

Lemma append_cons (c : ascii) (s r : string) :
  String c s +:+ r = String c (s +:+ r).
Proof. reflexivity. Qed.

Lemma unquote_quote_char (c : ascii) (rest : string) :
  unquote_body (quote_char c +:+ rest) = push c (unquote_body rest).
Proof. destruct c as [[] [] [] [] [] [] [] []]; reflexivity. Qed.

(** A literal written by [quote] is read back as the string it was
    written from, up to its closing quote. *)
Lemma unquote_quote_body (s rest : string) :
  unquote_body (quote_body s +:+ String (ascii_of_nat 34) rest) = Some (s, rest).
Proof.
  induction s as [|c s IH]; [reflexivity|].
  cbn [quote_body]. rewrite append_assoc, unquote_quote_char, IH. reflexivity.
Qed.

Lemma stringify_request (t : string) :
  JSON_stringify (request_of t) "" =
    VStr ("{" +:+ quote "messages" +:+ ":[{" +:+ quote "role" +:+ ":"
          +:+ quote "user" +:+ "," +:+ quote "content" +:+ ":"
          +:+ String (ascii_of_nat 34)
                (quote_body t +:+ String (ascii_of_nat 34) "}]}")).
Proof.
  cbv [request_of JSON_stringify serialize wrap join default String.eqb id].
  unfold quote at 5. generalize (quote_body t). intros literal.
  repeat (rewrite append_cons || rewrite append_assoc). reflexivity.
Qed.

(** The body of the request loses nothing of the message: whatever
    characters [t] holds (quotes, backslashes, line breaks), the literal
    that stands for it in the body is read back as [t], and two messages
    with the same body are the same message. *)
Theorem request_body_reads_back (t : string) :
  (exists literal,
     JSON_stringify (request_of t) "" =
       VStr ("{" +:+ quote "messages" +:+ ":[{" +:+ quote "role" +:+ ":"
             +:+ quote "user" +:+ "," +:+ quote "content" +:+ ":"
             +:+ String (ascii_of_nat 34) literal)
     /\ unquote_body literal = Some (t, "}]}"))
  /\ (forall t', JSON_stringify (request_of t) "" = JSON_stringify (request_of t') "" ->
                 t = t').
Proof.
  split.
  - eexists. split; [apply stringify_request | apply unquote_quote_body].
  - intros t' Heq. rewrite !stringify_request in Heq.
    injection Heq as Heq. repeat apply String.app_inj in Heq.
    pose proof (unquote_quote_body t "}]}") as H1.
    pose proof (unquote_quote_body t' "}]}") as H2.
    rewrite Heq in H1. congruence.
Qed.

End WireFacts.

(** ** More on the chat page *)
Section ChatUIMore.
Import ChatUI Session.

(** What a settlement does to a page is fixed by its outcome: one text
    for the placeholder and the lines it logs. *)
Lemma on_settled_shape (ref : nat) (settled : result response) :
  exists text log,
    forall p,
      on_settled ref settled p =
        (Ok tt, mkPage (alter (set_text text) ref (elements p)) (chatBox p)
                  (userInput p) (scrolled p) (effects p ++ log)).
Proof.
  destruct settled as [resp|e].
  - destruct (ok resp) eqn:Hok.
    + destruct (json resp) as [data|e] eqn:Hjson.
      * destruct (truthy (opt_prop data "result")) eqn:Hres.
        -- exists (ToString (opt_prop data "result")), []. intros p.
           rewrite (on_settled_result ref resp data p Hok Hjson Hres).
           unfold set_elements. now rewrite app_nil_r.
        -- exists no_result_text, []. intros p.
           rewrite (on_settled_no_result ref resp data p Hok Hjson Hres).
           unfold set_elements. now rewrite app_nil_r.
      * exists failure_text, [ConsoleError "Failed to fetch chat response:" e].
        intros p. unfold on_settled, try_catch, on_settled_try, bind, lift.
        rewrite Hok, Hjson. reflexivity.
    + exists failure_text,
        [ConsoleError "Failed to fetch chat response:"
           (Error ("HTTP error! Status: " +:+ pretty (status resp)))].
      intros p. unfold on_settled, try_catch, on_settled_try, bind, lift.
      rewrite Hok. reflexivity.
  - exists failure_text, [ConsoleError "Failed to fetch chat response:" e].
    intros p. reflexivity.
Qed.

(** A submission with text empties the input field at once and leaves
    the chat scrolled to its last bubble. The field is not filled again
    when the request settles, however it settles: after a failure the text
    the user typed is gone. *)
Theorem on_submit_clears_and_scrolls (p : page) :
  trim (userInput p) <> "" ->
  userInput (snd (on_submit p)) = ""
  /\ scrolled (snd (on_submit p)) = length (chatBox (snd (on_submit p)))
  /\ (forall settled,
        userInput (snd (on_settled (S (length (elements p))) settled
                          (snd (on_submit p)))) = "").
Proof.
  intros Ht. rewrite (on_submit_sends p Ht). cbn [snd userInput scrolled chatBox].
  split; [reflexivity|]. split.
  - rewrite length_app. cbn. lia.
  - intros settled.
    destruct (on_settled_shape (S (length (elements p))) settled) as (text & log & ->).
    reflexivity.
Qed.

Lemma on_submit_clears_and_scrolls_witness :
  userInput (snd (on_submit greeted_page)) = ""
  /\ scrolled (snd (on_submit greeted_page)) = 4%nat.
Proof.
  destruct (on_submit_clears_and_scrolls greeted_page) as (Hin & Hsc & _).
  - discriminate.
  - split; [exact Hin | exact Hsc].
Defined.

(** When the status of the response is outside 200 to 299 its body is
    not read: whatever the relay sent with it, an [error] text or even a
    [result], the placeholder gets the fixed failure text, and the one line
    logged holds the status and nothing of the body. *)
Theorem http_error_hides_body
    (p : page) (ref : nat) (st : Z) (body : result value) :
  st < 200 \/ 299 < st ->
  on_settled ref (Ok (mkResponse st body)) p =
    (Ok tt,
     mkPage (alter (set_text failure_text) ref (elements p)) (chatBox p)
       (userInput p) (scrolled p)
       (effects p ++
          [ConsoleError "Failed to fetch chat response:"
             (Error ("HTTP error! Status: " +:+ pretty st))])).
Proof.
  intros Hst.
  assert (Hok : ok (mkResponse st body) = false).
  { unfold ok. cbn [status]. apply andb_false_iff.
    destruct Hst; [left | right]; apply Z.leb_gt; lia. }
  unfold on_settled, try_catch, on_settled_try, bind, lift.
  rewrite Hok. reflexivity.
Qed.

Lemma http_error_hides_body_witness :
  text_of (snd (on_settled 1 (Ok (mkResponse 500
             (Ok (VObj [("error", VStr "quota exceeded")])))) greeted_page)) 1 =
    Some failure_text.
Proof.
  rewrite (http_error_hides_body greeted_page 1 500
             (Ok (VObj [("error", VStr "quota exceeded")]))).
  - reflexivity.
  - right. lia.
Defined.

Lemma alter_commute (f g : element -> element) (i j : nat) (l : list element) :
  i <> j -> alter f i (alter g j l) = alter g j (alter f i l).
Proof.
  intros Hij. apply list_eq. intros k.
  destruct (decide (k = i)) as [Hki|Hki]; destruct (decide (k = j)) as [Hkj|Hkj];
    try congruence; subst;
    repeat (rewrite list_lookup_alter_eq || rewrite list_lookup_alter_ne by congruence);
    reflexivity.
Qed.

(** Two requests in flight settle independently: when their placeholders
    differ, the bubbles, the children of the chat box, the input field and
    the scroll position end the same whichever answer arrives first. *)
Theorem settles_commute
    (p : page) (ref1 ref2 : nat) (settled1 settled2 : result response) :
  ref1 <> ref2 ->
  let first_then_second :=
    snd (on_settled ref2 settled2 (snd (on_settled ref1 settled1 p))) in
  let second_then_first :=
    snd (on_settled ref1 settled1 (snd (on_settled ref2 settled2 p))) in
  elements first_then_second = elements second_then_first
  /\ chatBox first_then_second = chatBox second_then_first
  /\ userInput first_then_second = userInput second_then_first
  /\ scrolled first_then_second = scrolled second_then_first.
Proof.
  intros Hne first_then_second second_then_first.
  subst first_then_second second_then_first.
  destruct (on_settled_shape ref1 settled1) as (text1 & log1 & H1).
  destruct (on_settled_shape ref2 settled2) as (text2 & log2 & H2).
  rewrite (H1 p), (H2 p). cbn [snd]. rewrite H1, H2.
  cbn [snd elements chatBox userInput scrolled].
  repeat split. apply alter_commute. congruence.
Qed.

Lemma settles_commute_witness :
  elements (snd (on_settled 1 (relay_answer (VStr "late"))
                   (snd (on_settled 0 (Throw (TypeError "Failed to fetch"))
                           greeted_page)))) =
  elements (snd (on_settled 0 (Throw (TypeError "Failed to fetch"))
                   (snd (on_settled 1 (relay_answer (VStr "late")) greeted_page)))).
Proof.
  apply (settles_commute greeted_page 0 1
           (Throw (TypeError "Failed to fetch")) (relay_answer (VStr "late"))).
  discriminate.
Defined.

End ChatUIMore.

(** ** Invariants of a session *)
Section SessionFacts.
Import ChatUI Session.

Lemma keeps_refl (p : page) : keeps p p.
Proof.
  repeat split; [lia | reflexivity | reflexivity |].
  intros i el Hel. exists el. now repeat split.
Qed.

Lemma keeps_trans (p q r : page) : keeps p q -> keeps q r -> keeps p r.
Proof.
  intros (Hl1 & Hc1 & He1 & Hk1) (Hl2 & Hc2 & He2 & Hk2).
  repeat split; [lia | now transitivity (chatBox q) | now transitivity (effects q) |].
  intros i el Hel.
  destruct (Hk1 i el Hel) as (el1 & Hel1 & Ht1 & Hcl1).
  destruct (Hk2 i el1 Hel1) as (el2 & Hel2 & Ht2 & Hcl2).
  exists el2. repeat split; congruence.
Qed.

Lemma on_submit_cases (p : page) :
  snd (on_submit p) = add_effect PreventDefault p \/
  snd (on_submit p) =
    mkPage
      (elements p ++ [user_bubble (trim (userInput p)); bot_bubble "Thinking..."])
      (chatBox p ++ [length (elements p); S (length (elements p))])
      ""
      (S (S (length (chatBox p))))
      (effects p ++
         [PreventDefault; Fetch "/api/chat" (fetch_init (trim (userInput p)))]).
Proof.
  destruct (decide (trim (userInput p) = "")) as [Ht|Ht].
  - left. now rewrite (on_submit_ignores p Ht).
  - right. now rewrite (on_submit_sends p Ht).
Qed.

Lemma step_keeps (p q : page) : step p q -> keeps p q.
Proof.
  intros [p' v|p' n|p'|p' ref settled].
  - exact (keeps_refl p').
  - exact (keeps_refl p').
  - destruct (on_submit_cases p') as [-> | ->].
    + repeat split; cbn; [lia | reflexivity | now apply prefix_app_r |].
      intros i el Hel. exists el. now repeat split.
    + repeat split; cbn [elements chatBox effects].
      * rewrite length_app. lia.
      * now apply prefix_app_r.
      * now apply prefix_app_r.
      * intros i el Hel. exists el. split; [now apply lookup_app_l_Some | now split].
  - destruct (on_settled_shape ref settled) as (text & log & ->).
    repeat split; cbn [snd elements chatBox effects].
    + now rewrite length_alter.
    + reflexivity.
    + now apply prefix_app_r.
    + intros i el Hel. destruct (decide (ref = i)) as [->|Hne].
      * exists (set_text text el).
        rewrite list_lookup_alter_eq, Hel. now repeat split.
      * exists el. rewrite list_lookup_alter_ne by assumption. now repeat split.
Qed.

(** Whatever happens later on a page (typing, scrolling, submissions,
    answers arriving in any order), nothing is taken away: every element
    stays where it is with its tag and classes, only its text can change,
    so a placeholder held by a pending request stays a bot bubble; the
    children of the chat box and the effects only grow at their end. *)
Theorem later_keeps_bubbles (p q : page) :
  later p q ->
  (length (elements p) <= length (elements q))%nat
  /\ chatBox p `prefix_of` chatBox q
  /\ effects p `prefix_of` effects q
  /\ (forall i el, elements p !! i = Some el ->
        exists el', elements q !! i = Some el' /\
                    tagName el' = tagName el /\ classList el' = classList el).
Proof.
  intros Hlater.
  assert (Hkeeps : keeps p q).
  { induction Hlater as [p|p q r Hstep _ IH]; [apply keeps_refl|].
    exact (keeps_trans p q r (step_keeps p q Hstep) IH). }
  destruct Hkeeps as (Hl & Hc & He & Hk). repeat split; try assumption.
  intros i el Hel. destruct (Hk i el Hel) as (el' & Hel' & Ht & Hcl).
  exists el'. repeat split; congruence.
Qed.

Lemma later_keeps_bubbles_witness :
  (length (elements greeted_page) <=
     length (elements (snd (on_settled 3 (relay_answer (VStr "Back again"))
                              (snd (on_submit greeted_page))))))%nat.
Proof.
  apply (later_keeps_bubbles greeted_page
           (snd (on_settled 3 (relay_answer (VStr "Back again"))
                   (snd (on_submit greeted_page))))).
  eapply rtc_l; [apply step_submit|].
  eapply rtc_l; [apply step_settle|]. apply rtc_refl.
Defined.

Lemma step_well_formed (p q : page) : step p q -> well_formed p -> well_formed q.
Proof.
  intros [p' v|p' n|p'|p' ref settled] [Hin Hnd].
  - split; assumption.
  - split; assumption.
  - destruct (on_submit_cases p') as [-> | ->]; [split; assumption|].
    split; cbn [elements chatBox].
    + apply Forall_app. split.
      * eapply Forall_impl; [exact Hin|]. intros r Hr. cbn beta in *.
        rewrite length_app. lia.
      * repeat constructor; rewrite length_app; cbn; lia.
    + apply NoDup_app. split; [assumption|]. split.
      * intros r Hr Hnew. rewrite Forall_forall in Hin. specialize (Hin r Hr).
        apply elem_of_cons in Hnew as [->|Hnew]; [lia|].
        apply list_elem_of_singleton in Hnew. lia.
      * apply NoDup_cons. split; [|apply NoDup_singleton].
        intros Hin'. apply list_elem_of_singleton in Hin'. lia.
  - destruct (on_settled_shape ref settled) as (text & log & ->).
    split; cbn [snd elements chatBox]; [|assumption].
    eapply Forall_impl; [exact Hin|]. intros r Hr. cbn beta in *.
    now rewrite length_alter.
Qed.

(** The children of the chat box stay sound: when each of them is a
    stored element and none occurs twice, this is so after any events. *)
Theorem later_well_formed (p q : page) :
  well_formed p -> later p q -> well_formed q.
Proof.
  intros Hwf Hlater. induction Hlater as [p|p q r Hstep _ IH]; [assumption|].
  apply IH. exact (step_well_formed p q Hstep Hwf).
Qed.

Lemma later_well_formed_witness :
  well_formed (snd (on_submit greeted_page)).
Proof.
  apply (later_well_formed greeted_page (snd (on_submit greeted_page))).
  - split; [repeat constructor; cbn; lia|].
    apply NoDup_cons. split; [|apply NoDup_singleton].
    intros Hin. apply list_elem_of_singleton in Hin. discriminate.
  - eapply rtc_l; [apply step_submit | apply rtc_refl].
Defined.

Lemma omap_lookup_app (els new : list element) (cs : list nat) :
  Forall (fun ref => (ref < length els)%nat) cs ->
  omap (fun ref => (els ++ new) !! ref) cs = omap (fun ref => els !! ref) cs.
Proof.
  induction 1 as [|r cs Hr _ IH]; [reflexivity|].
  cbn [omap list_omap]. rewrite IH, (lookup_app_l els new r Hr). reflexivity.
Qed.

(** On a page whose chat box is sound, a submission with text appends
    exactly two bubbles at the end of the chat, the user's and then the
    placeholder, and changes none of the bubbles before them. *)
Theorem submit_appends_two_bubbles (p : page) :
  well_formed p ->
  trim (userInput p) <> "" ->
  bubbles (snd (on_submit p)) =
    bubbles p ++ [user_bubble (trim (userInput p)); bot_bubble "Thinking..."].
Proof.
  intros [Hin _] Ht. rewrite (on_submit_sends p Ht).
  unfold bubbles. cbn [snd elements chatBox]. rewrite omap_app.
  rewrite (omap_lookup_app _ _ _ Hin). f_equal.
  cbn [omap list_omap].
  rewrite !lookup_app_r by lia.
  rewrite Nat.sub_diag.
  replace (S (length (elements p)) - length (elements p))%nat with 1%nat by lia.
  reflexivity.
Qed.

Lemma submit_appends_two_bubbles_witness :
  bubbles (snd (on_submit greeted_page)) =
    [user_bubble "Hi"; bot_bubble "Hello!";
     user_bubble "again"; bot_bubble "Thinking..."].
Proof.
  rewrite (submit_appends_two_bubbles greeted_page).
  - reflexivity.
  - split; [repeat constructor; cbn; lia|].
    apply NoDup_cons. split; [|apply NoDup_singleton].
    intros Hin. apply list_elem_of_singleton in Hin. discriminate.
  - discriminate.
Defined.

(** A settlement never adds, removes or reorders a bubble, whatever the
    outcome and whatever the page: the chat shows as many bubbles as
    before, each of the kind it had. *)
Theorem settle_keeps_bubble_kinds
    (p : page) (ref : nat) (settled : result response) :
  Forall2 same_kind (bubbles p) (bubbles (snd (on_settled ref settled p)))
  /\ length (bubbles (snd (on_settled ref settled p))) = length (bubbles p).
Proof.
  assert (Hkinds : Forall2 same_kind (bubbles p)
                     (bubbles (snd (on_settled ref settled p)))).
  { destruct (on_settled_shape ref settled) as (text & log & ->).
    unfold bubbles. cbn [snd elements chatBox].
    induction (chatBox p) as [|r cs IH]; [constructor|].
    cbn [omap list_omap].
    destruct (decide (ref = r)) as [->|Hne].
    - rewrite list_lookup_alter_eq.
      destruct (elements p !! r) as [el|]; cbn; [|exact IH].
      constructor; [now split | exact IH].
    - rewrite list_lookup_alter_ne by assumption.
      destruct (elements p !! r) as [el|]; cbn; [|exact IH].
      constructor; [now split | exact IH]. }
  split; [exact Hkinds | symmetry; exact (Forall2_length _ _ _ Hkinds)].
Qed.

End SessionFacts.

(** ** The page and the relay together *)
Section Exchange.
Import Relay ChatUI Session.

(** In the three theorems below the relay is given as request body the
    object whose serialization the page sent, and the page reads as
    answer the status and the object the relay passed to [res.json]. *)

Lemma alter_last_of_two (f : element -> element) (els : list element) (a b : element) :
  alter f (S (length els)) (els ++ [a; b]) = els ++ [a; f b].
Proof.
  replace (S (length els)) with (length els + 1)%nat by lia.
  now rewrite alter_app_r.
Qed.

Lemma serve_page_request (ai : client) (t : string) :
  serve ai (request_of t) =
    match ai (request_of_text t) with
    | Resolves resp =>
        (Ok tt, [GenerateContent (request_of_text t);
                 Respond 200 (VObj [("result",
                   coalesce (first_text resp) (JSON_stringify resp "  "))])])
    | Rejects e =>
        (Ok tt, [GenerateContent (request_of_text t);
                 Relay.ConsoleError "Error in /api/chat:" e;
                 Respond 500 (VObj [("error", reported e)])])
    end.
Proof.
  apply (serve_forward ai (request_of t)
           [VObj [("role", VStr "user"); ("content", VStr t)]]).
  - reflexivity.
  - repeat constructor.
Qed.

(** A whole exchange that succeeds: for a submission of the text [t],
    the relay calls the generation API with the single user turn [t], and
    when the answer holds a non-empty string [s] at the first of the three
    chains that is set, the relay responds 200 [{ result: s }] and the chat
    ends with the user's bubble [t] followed by a bot bubble [s]. *)
Theorem chat_round_success (ai : client) (p : page) (resp : value) (s : string) :
  trim (userInput p) <> "" ->
  ai (request_of_text (trim (userInput p))) = Resolves resp ->
  first_text resp = VStr s ->
  s <> "" ->
  exists ref p1 p2,
    on_submit p = (Ok (Some ref), p1)
    /\ serve ai (request_of (trim (userInput p))) =
         (Ok tt, [GenerateContent (request_of_text (trim (userInput p)));
                  Respond 200 (VObj [("result", VStr s)])])
    /\ on_settled ref (Ok (mkResponse 200 (Ok (VObj [("result", VStr s)])))) p1 =
         (Ok tt, p2)
    /\ elements p2 = elements p ++ [user_bubble (trim (userInput p)); bot_bubble s]
    /\ chatBox p2 = chatBox p ++ [length (elements p); S (length (elements p))].
Proof.
  intros Ht Hai Htext Hs.
  eexists _, _, _. split; [apply (on_submit_sends p Ht)|].
  split.
  { rewrite serve_page_request, Hai, Htext. reflexivity. }
  split.
  { apply (on_settled_result _ (mkResponse 200 (Ok (VObj [("result", VStr s)])))
             (VObj [("result", VStr s)]));
      [reflexivity | reflexivity | now apply (truthy_string s)]. }
  cbn [elements chatBox set_elements]. split; [|reflexivity].
  apply alter_last_of_two.
Qed.

Lemma chat_round_success_witness :
  exists ref p1 p2,
    on_submit hi_page = (Ok (Some ref), p1)
    /\ serve hello_client (request_of "Hi") =
         (Ok tt, [GenerateContent (request_of_text "Hi");
                  Respond 200 (VObj [("result", VStr "hello")])])
    /\ on_settled ref (Ok (mkResponse 200 (Ok (VObj [("result", VStr "hello")])))) p1 =
         (Ok tt, p2)
    /\ elements p2 = [user_bubble "Hi"; bot_bubble "hello"]
    /\ chatBox p2 = [0%nat; 1%nat].
Proof.
  apply (chat_round_success hello_client hi_page (path1_response (VStr "hello")) "hello").
  - discriminate.
  - reflexivity.
  - reflexivity.
  - discriminate.
Defined.

(** A whole exchange in which the generation API fails: the relay
    responds 500 with an [error] text, and the page shows none of it: the
    placeholder ends with the fixed failure text and the page logs the
    status 500. *)
Theorem chat_round_api_failure (ai : client) (p : page) (e : js_error) :
  trim (userInput p) <> "" ->
  ai (request_of_text (trim (userInput p))) = Rejects e ->
  exists ref p1 p2 m,
    on_submit p = (Ok (Some ref), p1)
    /\ responses (snd (serve ai (request_of (trim (userInput p))))) =
         [(500, VObj [("error", VStr m)])]
    /\ on_settled ref (Ok (mkResponse 500 (Ok (VObj [("error", VStr m)])))) p1 =
         (Ok tt, p2)
    /\ elements p2 =
         elements p ++ [user_bubble (trim (userInput p)); bot_bubble failure_text]
    /\ effects p2 =
         effects p ++
           [PreventDefault;
            Fetch "/api/chat" (fetch_init (trim (userInput p)));
            ChatUI.ConsoleError "Failed to fetch chat response:"
              (Error "HTTP error! Status: 500")].
Proof.
  intros Ht Hai. destruct (reported_text e) as (m & Hm & _).
  eexists _, _, _, m. split; [apply (on_submit_sends p Ht)|].
  split.
  { rewrite serve_page_request, Hai. cbn. now rewrite Hm. }
  split; [reflexivity|].
  cbn [elements effects set_elements add_effect]. split.
  - apply alter_last_of_two.
  - now rewrite <- app_assoc.
Qed.

Lemma chat_round_api_failure_witness :
  exists ref p1 p2 m,
    on_submit hi_page = (Ok (Some ref), p1)
    /\ responses (snd (serve failing_client (request_of "Hi"))) =
         [(500, VObj [("error", VStr m)])]
    /\ on_settled ref (Ok (mkResponse 500 (Ok (VObj [("error", VStr m)])))) p1 =
         (Ok tt, p2)
    /\ elements p2 = [user_bubble "Hi"; bot_bubble failure_text]
    /\ effects p2 =
         [PreventDefault;
          Fetch "/api/chat" (fetch_init "Hi");
          ChatUI.ConsoleError "Failed to fetch chat response:"
            (Error "HTTP error! Status: 500")].
Proof.
  apply (chat_round_api_failure failing_client hi_page (Error "quota exceeded")).
  - discriminate.
  - reflexivity.
Defined.

(** A whole exchange whose answer has none of the shapes the relay
    reads: when the generation API answers with an object that has no
    [response] and no [candidate] property, what the user is shown in the
    bot bubble is the dump of that whole object. *)
Theorem chat_round_shows_dump
    (ai : client) (p : page) (ps : list (string * value)) :
  trim (userInput p) <> "" ->
  ai (request_of_text (trim (userInput p))) = Resolves (VObj ps) ->
  assoc "response" ps = None ->
  assoc "candidate" ps = None ->
  exists ref p1 p2 dump,
    JSON_stringify (VObj ps) "  " = VStr dump
    /\ on_submit p = (Ok (Some ref), p1)
    /\ responses (snd (serve ai (request_of (trim (userInput p))))) =
         [(200, VObj [("result", VStr dump)])]
    /\ on_settled ref (Ok (mkResponse 200 (Ok (VObj [("result", VStr dump)])))) p1 =
         (Ok tt, p2)
    /\ elements p2 =
         elements p ++ [user_bubble (trim (userInput p)); bot_bubble dump].
Proof.
  intros Ht Hai Hresp Hcand.
  assert (Hdump : exists dump,
            JSON_stringify (VObj ps) "  " = VStr dump /\ dump <> "").
  { unfold JSON_stringify. cbn [serialize]. eexists. split; [reflexivity|].
    now apply wrap_not_empty. }
  destruct Hdump as (dump & Hdump & Hne).
  eexists _, _, _, dump. split; [exact Hdump|].
  split; [apply (on_submit_sends p Ht)|].
  split.
  { rewrite serve_page_request, Hai, (paths_of_unknown_shape ps Hresp Hcand), Hdump.
    reflexivity. }
  split.
  { apply (on_settled_result _ (mkResponse 200 (Ok (VObj [("result", VStr dump)])))
             (VObj [("result", VStr dump)]));
      [reflexivity | reflexivity | now apply (truthy_string dump)]. }
  cbn [elements set_elements]. apply alter_last_of_two.
Qed.

Lemma chat_round_shows_dump_witness :
  exists ref p1 p2 dump,
    JSON_stringify candidates_response "  " = VStr dump
    /\ on_submit hi_page = (Ok (Some ref), p1)
    /\ responses (snd (serve (fun _ => Resolves candidates_response)
                         (request_of "Hi"))) =
         [(200, VObj [("result", VStr dump)])]
    /\ on_settled ref (Ok (mkResponse 200 (Ok (VObj [("result", VStr dump)])))) p1 =
         (Ok tt, p2)
    /\ elements p2 = [user_bubble "Hi"; bot_bubble dump].
Proof.
  apply (chat_round_shows_dump (fun _ => Resolves candidates_response) hi_page
           [("candidates", VArr [VObj [("content",
              VObj [("parts", VArr [VObj [("text", VStr "hello")]])])]])]).
  - discriminate.
  - reflexivity.
  - reflexivity.
  - reflexivity.
Defined.

End Exchange.

(** ** The relay on any answer *)
Section ObservedFacts.
Import Relay Observed.

(** On JSON data the two embeddings of [extractText] agree. *)
Lemma extractText_data (resp : value) (tr : list event) :
  Observed.extractText (data_answer resp) tr = Relay.extractText resp tr.
Proof.
  rewrite extractText_run.
  unfold Observed.extractText, try_catch, Observed.extractText_try, bind, lift, ret.
  unfold data_answer, first_text, coalesce. cbn [chain1 chain2 chain3 dump].
  destruct (is_nullish (path1 resp)) eqn:H1.
  - destruct (is_nullish (path2 resp)) eqn:H2.
    + destruct (is_nullish (path3 resp)) eqn:H3; rewrite ?H3; reflexivity.
    + rewrite H2. reflexivity.
  - rewrite !H1. reflexivity.
Qed.

Lemma extractText_caught (a : answer) (e : js_error) (tr : list event) :
  read_throws a e ->
  Observed.extractText a tr =
    (dump a, tr ++ [Relay.ConsoleError "Error extracting text:" e]).
Proof.
  unfold Observed.extractText, try_catch, Observed.extractText_try, bind, lift, ret.
  intros [H1|[(t1 & H1 & N1 & H2)|(t1 & t2 & H1 & N1 & H2 & N2 & H3)]].
  - rewrite H1. reflexivity.
  - rewrite H1, N1, H2. reflexivity.
  - rewrite H1, N1, H2, N2, H3. reflexivity.
Qed.

(** When the serialization itself throws, the [catch] block runs it
    again and [extractText] ends by throwing, after one line logged. *)
Lemma extractText_rethrows (a : answer) (tr : list event) :
  (forall t1 t2 t3 e,
     chain1 a = Ok t1 -> is_nullish t1 = true ->
     chain2 a = Ok t2 -> is_nullish t2 = true ->
     chain3 a = Ok t3 -> is_nullish t3 = true ->
     dump a = Throw e ->
     Observed.extractText a tr =
       (Throw e, tr ++ [Relay.ConsoleError "Error extracting text:" e]))
  /\ (forall e e',
        read_throws a e -> dump a = Throw e' ->
        Observed.extractText a tr =
          (Throw e', tr ++ [Relay.ConsoleError "Error extracting text:" e])).
Proof.
  split.
  - intros t1 t2 t3 e H1 N1 H2 N2 H3 N3 Hd.
    unfold Observed.extractText, try_catch, Observed.extractText_try, bind, lift, ret.
    rewrite H1, N1, H2, N2, H3, N3, Hd. cbn. now rewrite Hd.
  - intros e e' Hread Hd. now rewrite (extractText_caught a e tr Hread), Hd.
Qed.

(** The runs of the [try] block that end without a throw. *)
Lemma extractText_first_text_or_dump_aux (a : answer) (tr : list event) :
  (forall t,
     chain1 a = Ok t -> is_nullish t = false ->
     Observed.extractText a tr = (Ok t, tr))
  /\ (forall t1 t,
        chain1 a = Ok t1 -> is_nullish t1 = true ->
        chain2 a = Ok t -> is_nullish t = false ->
        Observed.extractText a tr = (Ok t, tr))
  /\ (forall t1 t2 t,
        chain1 a = Ok t1 -> is_nullish t1 = true ->
        chain2 a = Ok t2 -> is_nullish t2 = true ->
        chain3 a = Ok t -> is_nullish t = false ->
        Observed.extractText a tr = (Ok t, tr))
  /\ (forall t1 t2 t3 d,
        chain1 a = Ok t1 -> is_nullish t1 = true ->
        chain2 a = Ok t2 -> is_nullish t2 = true ->
        chain3 a = Ok t3 -> is_nullish t3 = true ->
        dump a = Ok d ->
        Observed.extractText a tr = (Ok d, tr)).
Proof.
  unfold Observed.extractText, try_catch, Observed.extractText_try, bind, lift, ret.
  split; [intros t H1 N1; now rewrite H1, N1, N1, N1|].
  split; [intros t1 t H1 N1 H2 N2; now rewrite H1, N1, H2, N2, N2|].
  split; [intros t1 t2 t H1 N1 H2 N2 H3 N3; now rewrite H1, N1, H2, N2, H3, N3|].
  intros t1 t2 t3 d H1 N1 H2 N2 H3 N3 Hd. now rewrite H1, N1, H2, N2, H3, N3, Hd.
Qed.

(** C3, as amended: [extractText] tries the three chains in their order
    and returns the first value that is neither [undefined] nor [null], as
    it is, without serializing the response. When no chain yields one it
    returns the whole response serialized with an indent of two, when that
    serialization succeeds. When reading a chain throws, the exception is
    caught and logged and the function returns that same serialization,
    again when it succeeds. On a response that is JSON data nothing
    throws: the function returns, and what it returns is a string when the
    text it found is one, or when it found none and the response is not
    [undefined]. *)
Theorem extractText_first_text_or_dump (a : answer) (tr : list event) :
  (forall t,
     chain1 a = Ok t -> is_nullish t = false ->
     Observed.extractText a tr = (Ok t, tr))
  /\ (forall t1 t,
        chain1 a = Ok t1 -> is_nullish t1 = true ->
        chain2 a = Ok t -> is_nullish t = false ->
        Observed.extractText a tr = (Ok t, tr))
  /\ (forall t1 t2 t,
        chain1 a = Ok t1 -> is_nullish t1 = true ->
        chain2 a = Ok t2 -> is_nullish t2 = true ->
        chain3 a = Ok t -> is_nullish t = false ->
        Observed.extractText a tr = (Ok t, tr))
  /\ (forall t1 t2 t3 d,
        chain1 a = Ok t1 -> is_nullish t1 = true ->
        chain2 a = Ok t2 -> is_nullish t2 = true ->
        chain3 a = Ok t3 -> is_nullish t3 = true ->
        dump a = Ok d ->
        Observed.extractText a tr = (Ok d, tr))
  /\ (forall e d,
        read_throws a e -> dump a = Ok d ->
        Observed.extractText a tr =
          (Ok d, tr ++ [Relay.ConsoleError "Error extracting text:" e]))
  /\ (forall resp,
        a = data_answer resp ->
        exists v,
          Observed.extractText a tr = (Ok v, tr)
          /\ Relay.extractText resp tr = (Ok v, tr)
          /\ v = coalesce (first_text resp) (JSON_stringify resp "  ")
          /\ (is_string (first_text resp) = true \/
              (is_nullish (first_text resp) = true /\ resp <> VUndefined) ->
              is_string v = true)).
Proof.
  unfold Observed.extractText, try_catch, Observed.extractText_try, bind, lift, ret.
  split; [intros t H1 N1; now rewrite H1, N1, N1, N1|].
  split; [intros t1 t H1 N1 H2 N2; now rewrite H1, N1, H2, N2, N2|].
  split; [intros t1 t2 t H1 N1 H2 N2 H3 N3; now rewrite H1, N1, H2, N2, H3, N3|].
  split.
  { intros t1 t2 t3 d H1 N1 H2 N2 H3 N3 Hd. now rewrite H1, N1, H2, N2, H3, N3, Hd. }
  split.
  { intros e d Hread Hd. pose proof (extractText_caught a e tr Hread) as Hrun.
    unfold Observed.extractText, try_catch, Observed.extractText_try, bind, lift, ret
      in Hrun.
    now rewrite Hrun, Hd. }
  intros resp ->. exists (coalesce (first_text resp) (JSON_stringify resp "  ")).
  pose proof (extractText_data resp tr) as Hdata.
  unfold Observed.extractText, try_catch, Observed.extractText_try, bind, lift, ret
    in Hdata.
  rewrite Hdata, extractText_run. repeat split.
  intros [Hstr|[Hnone Hresp]].
  - now rewrite (coalesce_defined _ _ (is_string_not_nullish _ Hstr)).
  - rewrite (coalesce_nullish _ _ Hnone). now apply JSON_stringify_string.
Qed.

Lemma extractText_first_text_or_dump_witness :
  Observed.extractText accessor_answer [] =
    (Ok (VStr "{}"), [Relay.ConsoleError "Error extracting text:" (Error "not ready")]).
Proof.
  destruct (extractText_first_text_or_dump accessor_answer [])
    as (_ & _ & _ & _ & Hcaught & _).
  apply (Hcaught (Error "not ready") (VStr "{}")).
  - left. reflexivity.
  - reflexivity.
Defined.

(** What [extractText] adds to the trace: nothing, or one line. *)
Lemma extractText_trace (a : answer) (tr : list event) :
  (exists v, Observed.extractText a tr = (Ok v, tr))
  \/ (exists e, Observed.extractText a tr =
                  (dump a, tr ++ [Relay.ConsoleError "Error extracting text:" e])).
Proof.
  destruct (chain1 a) as [t1|e1] eqn:H1.
  2:{ right. exists e1. apply extractText_caught. now left. }
  destruct (is_nullish t1) eqn:N1.
  2:{ left. exists t1.
      now apply (proj1 (extractText_first_text_or_dump_aux a tr)). }
  destruct (chain2 a) as [t2|e2] eqn:H2.
  2:{ right. exists e2. apply extractText_caught. right. left. now exists t1. }
  destruct (is_nullish t2) eqn:N2.
  2:{ left. exists t2.
      now apply (proj1 (proj2 (extractText_first_text_or_dump_aux a tr)) t1). }
  destruct (chain3 a) as [t3|e3] eqn:H3.
  2:{ right. exists e3. apply extractText_caught. right. right. now exists t1, t2. }
  destruct (is_nullish t3) eqn:N3.
  2:{ left. exists t3.
      now apply (proj1 (proj2 (proj2 (extractText_first_text_or_dump_aux a tr))) t1 t2). }
  destruct (dump a) as [d|e] eqn:Hd.
  - left. exists d.
    now apply (proj2 (proj2 (proj2 (extractText_first_text_or_dump_aux a tr))) t1 t2 t3).
  - right. exists e.
    rewrite (proj1 (extractText_rethrows a tr) t1 t2 t3 e) by assumption.
    reflexivity.
Qed.

(** The two ends of a request that reaches the SDK call. *)
Lemma observed_serve_forward (ai : Observed.client) (body : value) (msgs : list value) :
  opt_prop body "messages" = VArr msgs ->
  Forall (fun m => is_nullish m = false) msgs ->
  Observed.serve ai body =
    match ai (request_for msgs) with
    | Resolves a =>
        match Observed.extractText a [GenerateContent (request_for msgs)] with
        | (Ok text, tr) => (Ok tt, tr ++ [Respond 200 (VObj [("result", text)])])
        | (Throw e, tr) =>
            (Ok tt, tr ++ [Relay.ConsoleError "Error in /api/chat:" e;
                           Respond 500 (VObj [("error", reported e)])])
        end
    | Rejects e =>
        (Ok tt, [GenerateContent (request_for msgs);
                 Relay.ConsoleError "Error in /api/chat:" e;
                 Respond 500 (VObj [("error", reported e)])])
    end.
Proof.
  intros Hmsgs Hall.
  pose proof (opt_prop_array_not_nullish _ _ _ Hmsgs) as Hbody.
  rewrite (opt_prop_own _ _ Hbody) in Hmsgs.
  unfold Observed.serve, Observed.handler, try_catch, Observed.handler_try, destructure.
  rewrite Hbody. unfold bind at 1. unfold lift at 1. rewrite Hmsgs.
  cbn [isArray]. unfold bind at 1. unfold ret at 1.
  unfold bind at 1. rewrite (mapM_to_content_ok msgs [] Hall).
  unfold bind at 1. unfold Observed.generateContent, bind at 1. unfold emit, modify.
  fold (request_for msgs). cbn [app].
  destruct (ai (request_for msgs)) as [a|e]; [|reflexivity].
  unfold ret at 1. unfold bind.
  destruct (Observed.extractText a [GenerateContent (request_for msgs)])
    as [[text|e] tr]; [reflexivity|].
  unfold handler_catch, bind, console_error, res_json, emit, modify.
  now rewrite <- app_assoc.
Qed.

Lemma observed_serve_refuse (ai : Observed.client) (body : value) :
  (forall msgs, opt_prop body "messages" = VArr msgs ->
                Exists (fun m => is_nullish m = true) msgs) ->
  exists e,
    Observed.serve ai body =
      (Ok tt, [Relay.ConsoleError "Error in /api/chat:" e;
               Respond 500 (VObj [("error", VStr (message e))])])
    /\ message e <> "".
Proof.
  intros Hbad.
  unfold Observed.serve, Observed.handler, try_catch, Observed.handler_try, destructure.
  destruct (is_nullish body) eqn:Hbody.
  - destruct body; try discriminate Hbody;
      (eexists; split; [reflexivity | discriminate]).
  - rewrite (opt_prop_own _ _ Hbody) in Hbad.
    unfold bind at 1. unfold lift at 1.
    destruct (own_prop body "messages") as [ | |b|z|s|msgs|ps] eqn:Hmsgs;
      try (exists (Error "Invalid messages format. Expected an array.");
           split; [reflexivity | discriminate]).
    cbn [isArray]. unfold bind at 1. unfold ret at 1. unfold bind at 1.
    destruct (mapM_to_content_throw msgs [] (Hbad msgs eq_refl)) as (m & _ & Hm & ->).
    destruct m; try discriminate Hm;
      (eexists (TypeError _); split; [reflexivity | discriminate]).
Qed.

(** With a client that answers JSON data the handler is the one of
    [Relay]. *)
Lemma serve_of_data (ai : Relay.client) (body : value) :
  Observed.serve (of_data ai) body = Relay.serve ai body.
Proof.
  unfold Observed.serve, Relay.serve, Observed.handler, Relay.handler, try_catch.
  assert (Htry : Observed.handler_try (of_data ai) body [] =
                 Relay.handler_try ai body []); [|now rewrite Htry].
  unfold Observed.handler_try, Relay.handler_try, bind.
  destruct (lift (destructure "req.body" body "messages") [])
    as [[messages|e] tr1]; [|reflexivity].
  destruct ((if isArray messages then ret tt
             else throw (Error "Invalid messages format. Expected an array.")) tr1)
    as [[u|e] tr2]; [|reflexivity].
  destruct (match messages with
            | VArr msgs => mapM to_content msgs
            | _ => ret []
            end tr2) as [[contents|e] tr3]; [|reflexivity].
  unfold Observed.generateContent, Relay.generateContent, bind, of_data.
  destruct (emit _ tr3) as [[u'|e] tr4]; [|reflexivity].
  destruct (ai _) as [resp|e]; [|reflexivity].
  unfold ret at 1 2. now rewrite extractText_data.
Qed.

(** Every request is answered once, for every body and every client
    whose call resolves, with JSON data or with an object whose reads or
    serialization throw, or rejects with an error object. The one response
    is a 200 with a [result], after exactly one call, with no line of the
    handler's [catch] block logged and at most one line in all, that of an
    extraction that recovered; or a 500 whose body has a non-empty [error]
    text, after at most one call, with exactly one line of the handler's
    [catch] block and at most two lines in all. *)
Theorem serve_answers_once (ai : Observed.client) (body : value) :
  let tr := snd (Observed.serve ai body) in
  (exists text,
     responses tr = [(200, VObj [("result", text)])]
     /\ length (api_calls tr) = 1%nat
     /\ lines "Error in /api/chat:" tr = []
     /\ (length (logged tr) <= 1)%nat)
  \/ (exists m,
        responses tr = [(500, VObj [("error", VStr m)])]
        /\ m <> ""
        /\ (length (api_calls tr) <= 1)%nat
        /\ length (lines "Error in /api/chat:" tr) = 1%nat
        /\ (length (logged tr) <= 2)%nat).
Proof.
  intros tr. subst tr.
  destruct (request_dichotomy body) as [(msgs & Hmsgs & Hall)|Hbad].
  - rewrite (observed_serve_forward ai body msgs Hmsgs Hall).
    destruct (ai (request_for msgs)) as [a|e].
    + destruct (extractText_trace a [GenerateContent (request_for msgs)])
        as [[v ->]|[e ->]].
      * left. exists v. cbn. repeat split. lia.
      * destruct (dump a) as [d|e'].
        -- left. exists d. cbn. repeat split. lia.
        -- right. destruct (reported_text e') as (m & Hm & Hne).
           exists m. cbn. rewrite Hm. repeat split; [assumption | lia | lia].
    + right. destruct (reported_text e) as (m & Hm & Hne).
      exists m. cbn. rewrite Hm. repeat split; [assumption | lia | lia].
  - destruct (observed_serve_refuse ai body Hbad) as (e & -> & Hne).
    right. exists (message e). cbn. repeat split; [assumption | lia | lia].
Qed.

(** An answer with none of the three texts whose serialization throws
    is answered 500 although the call resolved: the failure is logged
    twice, by [extractText] and by the handler, and its message is the
    [error] text. *)
Theorem serve_unserializable_answer
    (ai : Observed.client) (body : value) (msgs : list value) (a : answer)
    (t1 t2 t3 : value) (e : js_error) :
  opt_prop body "messages" = VArr msgs ->
  Forall (fun m => is_nullish m = false) msgs ->
  ai (request_for msgs) = Resolves a ->
  chain1 a = Ok t1 -> is_nullish t1 = true ->
  chain2 a = Ok t2 -> is_nullish t2 = true ->
  chain3 a = Ok t3 -> is_nullish t3 = true ->
  dump a = Throw e ->
  Observed.serve ai body =
    (Ok tt, [GenerateContent (request_for msgs);
             Relay.ConsoleError "Error extracting text:" e;
             Relay.ConsoleError "Error in /api/chat:" e;
             Respond 500 (VObj [("error", reported e)])]).
Proof.
  intros Hmsgs Hall Hai H1 N1 H2 N2 H3 N3 Hd.
  rewrite (observed_serve_forward ai body msgs Hmsgs Hall), Hai.
  rewrite (proj1 (extractText_rethrows a _) t1 t2 t3 e) by assumption.
  reflexivity.
Qed.

Lemma serve_unserializable_answer_witness :
  Observed.serve (fun _ => Resolves bigint_answer) hi_request =
    (Ok tt,
     [GenerateContent
        (request_for [VObj [("role", VStr "user"); ("content", VStr "Hi")]]);
      Relay.ConsoleError "Error extracting text:"
        (TypeError "Do not know how to serialize a BigInt");
      Relay.ConsoleError "Error in /api/chat:"
        (TypeError "Do not know how to serialize a BigInt");
      Respond 500 (VObj [("error", VStr "Do not know how to serialize a BigInt")])]).
Proof.
  apply (serve_unserializable_answer (fun _ => Resolves bigint_answer) hi_request
           [VObj [("role", VStr "user"); ("content", VStr "Hi")]] bigint_answer
           VUndefined VUndefined VUndefined
           (TypeError "Do not know how to serialize a BigInt"));
    try reflexivity.
  repeat constructor.
Defined.

End ObservedFacts.
